(** * PVI introspection of ophyd-async devices

    A shallow embedding of [src/ophyd_async/epics/pvi/pvi.py]: the name
    parser, the type resolver, the signal factory table, the recursive
    walk of the remote PVI tables, the verification against the declared
    annotations, the attachment of the discovered devices and the
    simulated construction.

    Conventions of the embedding.
    - A Python [str] is a [string]; its characters are the code points
      below 256, among which the regular expression class [\d] holds the
      ten ASCII digits only.
    - A Python [dict] whose iteration order the code relies on is an
      association list kept in insertion order ([dict_set] replaces a
      value in place, as Python does); a [frozenset] is a [gset].
    - A raised exception is a value of [Exn]; a function that can raise
      returns an [Outcome].  Recursion that follows remote tables or class
      annotations is bounded by a fuel argument and [OutOfFuel] stands for
      a call that is still running when the bound is reached.
    - Objects mutated in place are threaded explicitly: a function that
      mutates its argument returns the new state of that argument. *)

From stdpp Require Import base option list strings gmap.
From Stdlib Require Import ZArith Lia Ascii String.

Open Scope string_scope.
Open Scope Z_scope.
Open Scope list_scope.

Set Warnings "-register-all".

(** ** Python values used by the module *)

(** The class of a type-hint object, as [type(hint)] computes it. *)
Inductive MetaType : Type :=
| type_type
| GenericAlias_type
| UnionGenericAlias_type.

(** The exceptions that can leave the functions of the module. *)
Inductive Exn : Type :=
| AssertionError
| IndexError
| TypeError (what : string)
| KeyError_name (key : string)
| KeyError_access (key : gset string)
| RuntimeError_not_pvi_table
| RuntimeError_not_provided (sub_name : string) (hint_class : MetaType)
| TransportError (what : string).

Inductive Outcome (A : Type) : Type :=
| Ok (a : A)
| Raise (e : Exn)
| OutOfFuel.

Arguments Ok {A} a.
Arguments Raise {A} e.
Arguments OutOfFuel {A}.

Global Instance outcome_ret : MRet Outcome := fun A a => Ok a.

Global Instance outcome_bind : MBind Outcome := fun A B k m =>
  match m with
  | Ok a => k a
  | Raise e => Raise e
  | OutOfFuel => OutOfFuel
  end.

(** A call into a library either raises or returns. *)
Definition returned {A : Type} (r : Exn + A) : Outcome A :=
  match r with
  | inl e => Raise e
  | inr a => Ok a
  end.

(** ** Ordered dictionaries *)

Section Dict.
Context {K V : Type} `{EqDecision K}.

(** [d.get(k)] *)
Fixpoint dict_get (k : K) (d : list (K * V)) : option V :=
  match d with
  | [] => None
  | (k', v) :: d' => if decide (k = k') then Some v else dict_get k d'
  end.

(** [d[k] = v]: an existing key keeps its position, a new key goes last. *)
Fixpoint dict_set (k : K) (v : V) (d : list (K * V)) : list (K * V) :=
  match d with
  | [] => [(k, v)]
  | (k', v') :: d' =>
      if decide (k = k') then (k, v) :: d' else (k', v') :: dict_set k v d'
  end.

Definition dict_keys (d : list (K * V)) : list K := d.*1.

End Dict.

(** ** The name parser: [_strip_number_from_string] *)

Definition is_digit (c : ascii) : bool :=
  ((48 <=? nat_of_ascii c) && (nat_of_ascii c <=? 57))%nat.

Definition is_newline (c : ascii) : bool := Ascii.eqb c "010"%char.

(** [$] without [re.MULTILINE]: the end of the string, or the position just
    before a line feed that is the last character. *)
Definition at_dollar (s : string) : bool :=
  match s with
  | EmptyString => true
  | String c EmptyString => is_newline c
  | String _ (String _ _) => false
  end.

(** The second group of the pattern and the anchor, a greedy run of [\d]
    followed by [$], tried at the head of [s]: the star takes a digit and
    goes on; when the rest cannot match, the star stops here and [$] is
    tried.  The result is the text of the group. *)
Fixpoint match_digits_dollar (s : string) : option string :=
  match s with
  | EmptyString => Some EmptyString
  | String c s' =>
      if is_digit c then
        match match_digits_dollar s' with
        | Some ds => Some (String c ds)
        | None => if at_dollar s then Some EmptyString else None
        end
      else if at_dollar s then Some EmptyString else None
  end.

(** [re.match] of the pattern of line 37, a lazy run of [.] followed by
    the second group and the anchor: the lazy group first tries to be
    empty, and is extended by one character, which cannot be a line feed,
    each time the rest of the pattern fails.  The result is the pair of
    groups, [None] when there is no match. *)
Fixpoint re_match (s : string) : option (string * string) :=
  match match_digits_dollar s with
  | Some ds => Some (EmptyString, ds)
  | None =>
      match s with
      | EmptyString => None
      | String c s' =>
          if is_newline c then None
          else match re_match s' with
               | Some (g1, g2) => Some (String c g1, g2)
               | None => None
               end
      end
  end.

Definition digit_value (c : ascii) : Z := Z.of_nat (nat_of_ascii c) - 48.

(** [int(number)] on a run of ASCII digits. *)
Fixpoint int_of_digits (acc : Z) (s : string) : Z :=
  match s with
  | EmptyString => acc
  | String c s' => int_of_digits (10 * acc + digit_value c) s'
  end.

Definition _strip_number_from_string (s : string) : Outcome (string * option Z) :=
  match re_match s with
  | None => Raise AssertionError
  | Some (name, group2) =>
      let number := if decide (group2 = EmptyString) then None else Some group2 in
      Ok (name, int_of_digits 0 <$> number)
  end.


(** ** Type hints

    A type hint is a class, a subscripted generic [origin[args]] or a
    [typing.Union]; [Optional[X]] is [Union[X, None]].  A class is known
    by its name and by whether it derives from [Signal]. *)

Record PyClass : Type := mkClass { cls_name : string; cls_is_signal : bool }.

Global Instance PyClass_eq_dec : EqDecision PyClass.
Proof. solve_decision. Defined.

Inductive PyType : Type :=
| TClass (c : PyClass)
| TAlias (origin : PyClass) (args : list PyType)
| TUnion (args : list PyType).

Definition NoneType : PyClass := mkClass "NoneType" false.
Definition Device : PyClass := mkClass "Device" false.
Definition DeviceVector : PyClass := mkClass "DeviceVector" false.
Definition Signal : PyClass := mkClass "Signal" true.
Definition SignalR : PyClass := mkClass "SignalR" true.
Definition SignalW : PyClass := mkClass "SignalW" true.
Definition SignalRW : PyClass := mkClass "SignalRW" true.
Definition SignalX : PyClass := mkClass "SignalX" true.

(** [Optional[t]] as the [typing] module builds it. *)
Definition TOptional (t : PyType) : PyType := TUnion [t; TClass NoneType].

(** What [typing.get_origin] can be compared with: the special forms
    [Union] and [Optional], and classes. *)
Inductive TypingObject : Type :=
| typing_Union
| typing_Optional
| class_object (c : PyClass).

Global Instance TypingObject_eq_dec : EqDecision TypingObject.
Proof. solve_decision. Defined.

Definition get_origin (t : PyType) : option TypingObject :=
  match t with
  | TClass _ => None
  | TAlias origin _ => Some (class_object origin)
  | TUnion _ => Some typing_Union
  end.

Definition get_args (t : PyType) : list PyType :=
  match t with
  | TClass _ => []
  | TAlias _ args => args
  | TUnion args => args
  end.

Definition isclass (t : PyType) : bool :=
  match t with TClass _ => true | _ => false end.

Definition must_be_a_class : Exn := TypeError "issubclass() arg 1 must be a class".

(** [issubclass(origin, Signal)] for a value of [get_origin]. *)
Definition issubclass_Signal_origin (origin : TypingObject) : Outcome bool :=
  match origin with
  | class_object c => Ok (cls_is_signal c)
  | typing_Union | typing_Optional => Raise must_be_a_class
  end.

(** [issubclass(t, Signal)] for a type hint. *)
Definition issubclass_Signal (t : PyType) : Outcome bool :=
  match t with
  | TClass c => Ok (cls_is_signal c)
  | TAlias _ _ | TUnion _ => Raise must_be_a_class
  end.

(** [type(hint)] *)
Definition type_of_hint (t : PyType) : MetaType :=
  match t with
  | TClass _ => type_type
  | TAlias _ _ => GenericAlias_type
  | TUnion _ => UnionGenericAlias_type
  end.

Definition is_NoneType (t : PyType) : bool :=
  match t with
  | TClass c => bool_decide (c = NoneType)
  | _ => false
  end.

(** Lines 47-53. *)
Definition _strip_union (field : PyType) : PyType :=
  if decide (get_origin field = Some typing_Union) then
    match List.find (fun arg => negb (is_NoneType arg)) (get_args field) with
    | Some arg => arg
    | None => field
    end
  else field.

(** Lines 56-59. *)
Definition _strip_device_vector (field : PyType) : Outcome (bool * PyType) :=
  if decide (get_origin field = Some (class_object DeviceVector)) then
    match get_args field with
    | arg :: _ => Ok (true, arg)
    | [] => Raise IndexError
    end
  else Ok (false, field).

(** The test of lines 121-123: the left operand of [or] is the origin when
    that is [None], else [issubclass(origin, Signal)]; the right operand is
    evaluated when the left one is false. *)
Definition is_signal_type (device_type : PyType) : Outcome bool :=
  left ← match get_origin device_type with
         | Some origin => issubclass_Signal_origin origin
         | None => Ok false
         end;
  if left : bool then Ok true
  else if isclass device_type then issubclass_Signal device_type
  else Ok false.

(** Lines 111-145.  The result is
    [(is_device_vector, is_signal, signal_dtype, device_type)]. *)
Definition _parse_type (is_pvi_table : bool) (number_suffix : option Z)
    (common_device_type : option PyType)
  : Outcome (bool * bool * option PyType * PyType) :=
  match common_device_type with
  | Some declared =>
      let device_type := _strip_union declared in
      '(is_device_vector, device_type) ← _strip_device_vector device_type;
      is_signal ← is_signal_type device_type;
      if is_signal : bool then
        match get_args device_type with
        | arg :: _ => Ok (is_device_vector, true, Some arg, device_type)
        | [] => Raise IndexError
        end
      else Ok (is_device_vector, false, None, device_type)
  | None =>
      if is_pvi_table then
        Ok (bool_decide (number_suffix <> None), false, None, TClass Device)
      else
        Ok (false, true, None, TClass Signal)
  end.

(** ** Objects

    An object is recorded by the call that made it, the attributes that
    [setattr] gave it, in the order of its [__dict__], and, for a
    [DeviceVector], which is a [dict], its items.  The constructors of
    devices and signals are outside the module: a call to one of them is
    recorded, not interpreted.  The [parent] link that the module sets on
    every object it attaches (lines 182, 198, 264 and 270) always points at
    the object it is attached to, so it is the tree itself. *)

Inductive Maker : Type :=
| epics_signal_rw (datatype : option PyType) (read_pv write_pv : string)
| epics_signal_r (datatype : option PyType) (read_pv : string)
| epics_signal_w (datatype : option PyType) (write_pv : string)
| epics_signal_x (write_pv : string)
| with_SimSignalBackend (cls : PyType) (datatype : option PyType) (source : string)
| no_arguments (cls : PyType).

Inductive PyObject : Type :=
  mkObject (made_by : Maker) (attrs : list (string * PyObject))
           (items : list (Z * PyObject)).

Definition made_by (o : PyObject) : Maker :=
  match o with mkObject m _ _ => m end.
Definition attrs (o : PyObject) : list (string * PyObject) :=
  match o with mkObject _ a _ => a end.
Definition items (o : PyObject) : list (Z * PyObject) :=
  match o with mkObject _ _ i => i end.

(** [setattr(o, name, value)] *)
Definition setattr (o : PyObject) (name : string) (value : PyObject) : PyObject :=
  mkObject (made_by o) (dict_set name value (attrs o)) (items o).

(** [o[key] = value] *)
Definition setitem (o : PyObject) (key : Z) (value : PyObject) : PyObject :=
  mkObject (made_by o) (attrs o) (dict_set key value (items o)).

(** [cls()]: a class or a subscripted class makes a new object;
    [typing.Union] cannot be instantiated. *)
Definition call_no_arguments (cls : PyType) : Outcome PyObject :=
  match cls with
  | TUnion _ => Raise (TypeError "Cannot instantiate typing.Union")
  | TClass _ | TAlias _ _ => Ok (mkObject (no_arguments cls) [] [])
  end.

(** [cls(SimSignalBackend(datatype, source))] *)
Definition new_sim_signal (cls : PyType) (datatype : option PyType)
    (source : string) : PyObject :=
  mkObject (with_SimSignalBackend cls datatype source) [] [].

(** [DeviceVector()] and [DeviceVector({...})] *)
Definition new_DeviceVector (children : list (Z * PyObject)) : PyObject :=
  mkObject (no_arguments (TClass DeviceVector)) [] children.

Definition class_of_hint (t : PyType) : PyType :=
  match t with
  | TAlias origin _ => TClass origin
  | TClass _ | TUnion _ => t
  end.

(** [type(o)] *)
Definition type_of_object (o : PyObject) : PyType :=
  match made_by o with
  | epics_signal_rw _ _ _ => TClass SignalRW
  | epics_signal_r _ _ => TClass SignalR
  | epics_signal_w _ _ => TClass SignalW
  | epics_signal_x _ => TClass SignalX
  | with_SimSignalBackend cls _ _ => class_of_hint cls
  | no_arguments cls => class_of_hint cls
  end.

(** ** The signal factories: [_pvi_mapping], lines 96-108

    Each value of the table is a lambda of fixed arity, called at line 227
    with the data type followed by the addresses of the child in the
    order of the remote table. *)

Abbreviation Factory := (option PyType -> list string -> Outcome PyObject).

Definition wrong_arity : Exn := TypeError "<lambda>() got a wrong number of positional arguments".

Definition pva (pv : string) : string := "pva://" +:+ pv.

Definition lambda_r_w : Factory := fun dtype pvs =>
  match pvs with
  | [read_pv; write_pv] =>
      Ok (mkObject (epics_signal_rw dtype (pva read_pv) (pva write_pv)) [] [])
  | _ => Raise wrong_arity
  end.

Definition lambda_rw : Factory := fun dtype pvs =>
  match pvs with
  | [read_write_pv] =>
      Ok (mkObject (epics_signal_rw dtype (pva read_write_pv) (pva read_write_pv)) [] [])
  | _ => Raise wrong_arity
  end.

Definition lambda_r : Factory := fun dtype pvs =>
  match pvs with
  | [read_pv] => Ok (mkObject (epics_signal_r dtype (pva read_pv)) [] [])
  | _ => Raise wrong_arity
  end.

Definition lambda_w : Factory := fun dtype pvs =>
  match pvs with
  | [write_pv] => Ok (mkObject (epics_signal_w dtype (pva write_pv)) [] [])
  | _ => Raise wrong_arity
  end.

Definition lambda_x : Factory := fun _ pvs =>
  match pvs with
  | [write_pv] => Ok (mkObject (epics_signal_x (pva write_pv)) [] [])
  | _ => Raise wrong_arity
  end.

Definition frozenset (keys : list string) : gset string := list_to_set keys.

Definition _pvi_mapping : gmap (gset string) Factory :=
  <[frozenset ["r"; "w"] := lambda_r_w]>
  (<[frozenset ["rw"] := lambda_rw]>
  (<[frozenset ["r"] := lambda_r]>
  (<[frozenset ["w"] := lambda_w]>
  (<[frozenset ["x"] := lambda_x]> ∅)))).

(** [_pvi_mapping[frozenset(pva_entries.keys())](signal_dtype, *pvs)],
    line 227. *)
Definition make_signal (pva_entries : list (string * string))
    (signal_dtype : option PyType) : Outcome PyObject :=
  let key := frozenset (dict_keys pva_entries) in
  match _pvi_mapping !! key with
  | Some factory => factory signal_dtype pva_entries.*2
  | None => Raise (KeyError_access key)
  end.

(** ** Discovered entries: [PVIEntry], lines 62-72

    A value of [sub_entries] is one entry, or a dictionary from numbers to
    entries.  Every entry the module builds has a device. *)

Inductive Slot (E : Type) : Type :=
| One (e : E)
| ByNumber (es : list (Z * E)).

Arguments One {E} e.
Arguments ByNumber {E} es.

Inductive PVIEntry : Type :=
  mkPVIEntry (sub_entries : list (string * Slot PVIEntry))
             (pvi_pv : option string)
             (device : PyObject)
             (common_device_type : option PyType).

Definition sub_entries (e : PVIEntry) : list (string * Slot PVIEntry) :=
  match e with mkPVIEntry s _ _ _ => s end.
Definition pvi_pv (e : PVIEntry) : option string :=
  match e with mkPVIEntry _ p _ _ => p end.
Definition device (e : PVIEntry) : PyObject :=
  match e with mkPVIEntry _ _ d _ => d end.
Definition common_device_type (e : PVIEntry) : option PyType :=
  match e with mkPVIEntry _ _ _ t => t end.

Definition set_sub_entries (e : PVIEntry) (s : list (string * Slot PVIEntry)) : PVIEntry :=
  mkPVIEntry s (pvi_pv e) (device e) (common_device_type e).
Definition set_pvi_pv (e : PVIEntry) (p : option string) : PVIEntry :=
  mkPVIEntry (sub_entries e) p (device e) (common_device_type e).

(** The truth value of an optional string: [None] and the empty string
    are false. *)
Definition str_truthy (s : option string) : bool :=
  match s with
  | Some (String _ _) => true
  | Some EmptyString | None => false
  end.

(** [s.endswith(suffix)] *)
Definition endswith (s suffix : string) : bool :=
  let n := String.length s in
  let m := String.length suffix in
  (m <=? n)%nat && String.eqb (String.substring (n - m) m s) suffix.

(** The names that the loops over annotations skip, lines 80 and 151. *)
Definition skipped (sub_name : string) : bool :=
  bool_decide (sub_name ∈ ["_name"; "parent"]).

(** A remote PVI table, in the order the remote reports it: child name to
    access tag to address. *)
Definition PvaEntries : Type := list (string * string).
Definition PvaTable : Type := list (string * PvaEntries).

Section WithEnvironment.

(** The collaborators of the module: the value of [DEFAULT_TIMEOUT], the
    annotations that [typing.get_type_hints] reports for a type hint, and
    the remote side, which answers a connection to a table address made
    with a timeout with the [pvi] field of the table or with the exception
    of the transport. *)
Context {Timeout : Type}.
Variable DEFAULT_TIMEOUT : Timeout.
Variable get_type_hints : PyType -> Exn + list (string * PyType).
Variable pvi_table_of : string -> Timeout -> Exn + PvaTable.

(** *** Verification: [_verify_common_blocks], lines 75-93 *)

(** One round of the loop of line 79, [verify] being the function itself as
    it applies to the value stored under a name. *)
Definition verify_sub_device (keys : list string)
    (verify : string -> option (PyType -> Outcome unit))
    (sub_name : string) (sub_device : PyType) : Outcome unit :=
  if skipped sub_name then Ok tt
  else if bool_decide (sub_name ∉ keys)
          && bool_decide (get_origin sub_device <> Some typing_Optional)
  then Raise (RuntimeError_not_provided sub_name (type_of_hint sub_device))
  else match verify sub_name with
       | None => Raise (KeyError_name sub_name)
       | Some verify_it => verify_it sub_device
       end.

Fixpoint verify_loop (keys : list string)
    (verify : string -> option (PyType -> Outcome unit))
    (common_sub_devices : list (string * PyType)) : Outcome unit :=
  match common_sub_devices with
  | [] => Ok tt
  | (sub_name, sub_device) :: rest =>
      _ ← verify_sub_device keys verify sub_name sub_device;
      verify_loop keys verify rest
  end.

(** The loop of line 88 over the values of a numbered slot. *)
Fixpoint verify_values (verifiers : list (PyType -> Outcome unit))
    (sub_device : PyType) : Outcome unit :=
  match verifiers with
  | [] => Ok tt
  | verify_it :: rest => _ ← verify_it sub_device; verify_values rest sub_device
  end.

Fixpoint _verify_common_blocks (entry : PVIEntry) (common_device : PyType)
  : Outcome unit :=
  match entry with
  | mkPVIEntry [] _ _ _ => Ok tt
  | mkPVIEntry ((_ :: _) as subs) _ _ _ =>
      common_sub_devices ← returned (get_type_hints common_device);
      let verifiers :=
        map (fun '(name, slot) =>
               (name,
                match slot with
                | One e => _verify_common_blocks e
                | ByNumber es =>
                    verify_values (map (fun '(_, e) => _verify_common_blocks e) es)
                end)) subs in
      verify_loop (dict_keys subs) (fun name => dict_get name verifiers)
                  common_sub_devices
  end.

(** Lines 87-93: the recursive calls on the value stored under a name. *)
Definition verify_slot (slot : Slot PVIEntry) : PyType -> Outcome unit :=
  match slot with
  | One e => _verify_common_blocks e
  | ByNumber es => verify_values (map (fun '(_, e) => _verify_common_blocks e) es)
  end.

(** *** Simulation: [_sim_common_blocks], lines 148-198 *)

(** The test of lines 157-159, which has no [isclass] guard. *)
Definition sim_is_signal (sub_device_t : PyType) : Outcome bool :=
  left ← match get_origin sub_device_t with
         | Some origin => issubclass_Signal_origin origin
         | None => Ok false
         end;
  if left : bool then Ok true else issubclass_Signal sub_device_t.

(** The loop of line 192: the builder runs on each value of the vector in
    turn and leaves it filled. *)
Fixpoint sim_vector_values (sim : PyObject -> Outcome PyObject)
    (values : list (Z * PyObject)) : Outcome (list (Z * PyObject)) :=
  match values with
  | [] => Ok []
  | (key, value) :: rest =>
      value' ← sim value;
      rest' ← sim_vector_values sim rest;
      Ok ((key, value') :: rest')
  end.

(** Lines 155-195 for one annotation: the object that lines 197-198 attach.
    [sim d t] is the builder called on [d] with [stripped_type=t], giving
    the final state of [d]. *)
Definition sim_sub_device (sim : PyObject -> PyType -> Outcome PyObject)
    (sub_name : string) (sub_device_t : PyType) : Outcome PyObject :=
  let sub_device_t := _strip_union sub_device_t in
  '(is_device_vector, sub_device_t) ← _strip_device_vector sub_device_t;
  is_signal ← sim_is_signal sub_device_t;
  let signal_type := head (get_args sub_device_t) in
  sub_device ←
    (if is_device_vector : bool then
       if is_signal : bool then
         let sub_device_1 := new_sim_signal sub_device_t signal_type sub_name in
         let sub_device_2 := new_sim_signal sub_device_t signal_type sub_name in
         Ok (new_DeviceVector [(1, sub_device_1); (2, sub_device_2)])
       else
         sub_device_1 ← call_no_arguments sub_device_t;
         sub_device_2 ← call_no_arguments sub_device_t;
         Ok (new_DeviceVector [(1, sub_device_1); (2, sub_device_2)])
     else if is_signal : bool then
       Ok (new_sim_signal sub_device_t signal_type sub_name)
     else call_no_arguments sub_device_t);
  if is_signal : bool then Ok sub_device
  else if is_device_vector : bool then
    values ← sim_vector_values (fun value => sim value sub_device_t) (items sub_device);
    Ok (mkObject (made_by sub_device) (attrs sub_device) values)
  else (sim sub_device sub_device_t : Outcome PyObject).

(** The loop of line 150.  The device is returned in the state in which
    the loop leaves it, also when an exception ends the loop. *)
Fixpoint sim_loop (sim : PyObject -> PyType -> Outcome PyObject)
    (hints : list (string * PyType)) (device : PyObject)
  : Outcome unit * PyObject :=
  match hints with
  | [] => (Ok tt, device)
  | (sub_name, sub_device_t) :: rest =>
      if skipped sub_name then sim_loop sim rest device
      else match sim_sub_device sim sub_name sub_device_t with
           | Ok sub_device => sim_loop sim rest (setattr device sub_name sub_device)
           | Raise e => (Raise e, device)
           | OutOfFuel => (OutOfFuel, device)
           end
  end.

(** A call that ends normally, as the value of the mutated argument. *)
Definition finished (r : Outcome unit * PyObject) : Outcome PyObject :=
  match r with
  | (Ok _, device) => Ok device
  | (Raise e, _) => Raise e
  | (OutOfFuel, _) => OutOfFuel
  end.

Fixpoint _sim_common_blocks (fuel : nat) (device : PyObject)
    (stripped_type : option PyType) : Outcome unit * PyObject :=
  match fuel with
  | O => (OutOfFuel, device)
  | S fuel' =>
      let device_t := default (type_of_object device) stripped_type in
      match get_type_hints device_t with
      | inr hints =>
          sim_loop (fun d t => finished (_sim_common_blocks fuel' d (Some t)))
                   hints device
      | inl e => (Raise e, device)
      end
  end.

(** *** Discovery: [_get_pvi_entries], lines 201-252

    A computation of the walk keeps the log of the connections made so
    far, each with the address and the timeout it was given. *)

Definition Fetch : Type := (string * Timeout)%type.

Definition Walk (A : Type) : Type := list Fetch -> Outcome A * list Fetch.

Definition walk_ret {A : Type} (a : A) : Walk A := fun log => (Ok a, log).

Definition walk_bind {A B : Type} (m : Walk A) (k : A -> Walk B) : Walk B :=
  fun log =>
    match m log with
    | (Ok a, log') => k a log'
    | (Raise e, log') => (Raise e, log')
    | (OutOfFuel, log') => (OutOfFuel, log')
    end.

Definition lift {A : Type} (o : Outcome A) : Walk A := fun log => (o, log).

Notation "x <~ m ; k" := (walk_bind m (fun x => k))
  (at level 20, m at level 100, k at level 200, only parsing).
Notation "' x <~ m ; k" := (walk_bind m (fun x => k))
  (at level 20, x pattern, m at level 100, k at level 200, only parsing).

(** Lines 205-212: the connection with its timeout, then the read. *)
Definition fetch_pvi (pv : string) (timeout : Timeout) : Walk PvaTable :=
  fun log => (returned (pvi_table_of pv timeout), log ++ [(pv, timeout)]).

(** Lines 235-245.  A numbered entry goes into the dictionary under the
    base name, which line 240 creates when the name is new; item
    assignment on a stored [PVIEntry] is a [TypeError]. *)
Definition store_sub_entry (subs : list (string * Slot PVIEntry))
    (is_device_vector : bool) (sub_name sub_name_split : string)
    (sub_number_split : option Z) (sub_entry : PVIEntry)
  : Outcome (list (string * Slot PVIEntry)) :=
  if is_device_vector then
    let sub_number_split := default 1 sub_number_split in
    match dict_get sub_name_split subs with
    | None =>
        Ok (dict_set sub_name_split (ByNumber [(sub_number_split, sub_entry)]) subs)
    | Some (ByNumber es) =>
        Ok (dict_set sub_name_split
              (ByNumber (dict_set sub_number_split sub_entry es)) subs)
    | Some (One _) =>
        Raise (TypeError "'PVIEntry' object does not support item assignment")
    end
  else Ok (dict_set sub_name (One sub_entry) subs).

(** Line 219. *)
Definition is_pvi_table_child (pvs : list string) : bool :=
  match pvs with
  | [pv] => endswith pv ":PVI"
  | _ => false
  end.

(** Lines 213-215. *)
Definition hints_for (common_device_type : option PyType)
  : Outcome (list (string * PyType)) :=
  match common_device_type with
  | Some t => returned (get_type_hints t)
  | None => Ok []
  end.

(** Line 202. *)
Definition not_a_pvi_table (pvi_pv : option string) : bool :=
  negb (str_truthy pvi_pv) || negb (endswith (default "" pvi_pv) ":PVI").

(** One round of the loop of line 217.  [recurse] is the call of line 249.
    The entry stored by lines 235-245 is the object that lines 248-249 then
    fill, so the stored entry is replaced by its final state. *)
Definition walk_child (recurse : PVIEntry -> Walk PVIEntry)
    (common_device_type_hints : list (string * PyType))
    (subs : list (string * Slot PVIEntry))
    (sub_name : string) (pva_entries : PvaEntries)
  : Walk (list (string * Slot PVIEntry)) :=
  let pvs := pva_entries.*2 in
  let is_pvi_table := is_pvi_table_child pvs in
  '(sub_name_split, sub_number_split) <~ lift (_strip_number_from_string sub_name);
  '(is_device_vector, is_signal, signal_dtype, device_type) <~
     lift (_parse_type is_pvi_table sub_number_split
             (dict_get sub_name_split common_device_type_hints));
  device <~ lift (if is_signal : bool then make_signal pva_entries signal_dtype
                  else call_no_arguments device_type);
  let sub_entry := mkPVIEntry [] None device (Some device_type) in
  subs <~ lift (store_sub_entry subs is_device_vector sub_name sub_name_split
                  sub_number_split sub_entry);
  if is_pvi_table then
    sub_entry <~ recurse (set_pvi_pv sub_entry (head pvs));
    lift (store_sub_entry subs is_device_vector sub_name sub_name_split
            sub_number_split sub_entry)
  else walk_ret subs.

Fixpoint walk_loop (recurse : PVIEntry -> Walk PVIEntry)
    (common_device_type_hints : list (string * PyType))
    (pva_table : PvaTable) (subs : list (string * Slot PVIEntry))
  : Walk (list (string * Slot PVIEntry)) :=
  match pva_table with
  | [] => walk_ret subs
  | (sub_name, pva_entries) :: rest =>
      subs <~ walk_child recurse common_device_type_hints subs sub_name pva_entries;
      walk_loop recurse common_device_type_hints rest subs
  end.

(** The entry is returned in the state in which the call leaves it. *)
Fixpoint _get_pvi_entries (fuel : nat) (entry : PVIEntry) (timeout : Timeout)
  : Walk PVIEntry :=
  match fuel with
  | O => lift OutOfFuel
  | S fuel' =>
      if not_a_pvi_table (pvi_pv entry)
      then lift (Raise RuntimeError_not_pvi_table)
      else
        pva_table <~ fetch_pvi (default "" (pvi_pv entry)) timeout;
        common_device_type_hints <~ lift (hints_for (common_device_type entry));
        subs <~ walk_loop (fun sub_entry => _get_pvi_entries fuel' sub_entry DEFAULT_TIMEOUT)
                  common_device_type_hints pva_table (sub_entries entry);
        let entry := set_sub_entries entry subs in
        match common_device_type entry with
        | Some t => _ <~ lift (_verify_common_blocks entry t); walk_ret entry
        | None => walk_ret entry
        end
  end.

(** *** Attachment: [_set_device_attributes], lines 255-271

    The device of the entry is returned with its attributes set. *)

Fixpoint _set_device_attributes (entry : PVIEntry) : PyObject :=
  match entry with
  | mkPVIEntry subs _ entry_device _ =>
      fold_left
        (fun entry_device '(sub_name, slot) =>
           let sub_device :=
             match slot with
             | ByNumber es =>
                 fold_left
                   (fun sub_device '(key, device_vector_sub_entry) =>
                      setitem sub_device key
                        (if str_truthy (pvi_pv device_vector_sub_entry)
                         then _set_device_attributes device_vector_sub_entry
                         else device device_vector_sub_entry))
                   es (new_DeviceVector [])
             | One sub_entry =>
                 if str_truthy (pvi_pv sub_entry)
                 then _set_device_attributes sub_entry
                 else device sub_entry
             end in
           setattr entry_device sub_name sub_device)
        subs entry_device
  end.

(** The object attached for an entry, lines 260-262 and 266-268, and for a
    slot, lines 257-268. *)
Definition attached_entry (sub_entry : PVIEntry) : PyObject :=
  if str_truthy (pvi_pv sub_entry) then _set_device_attributes sub_entry
  else device sub_entry.

Definition attached_slot (slot : Slot PVIEntry) : PyObject :=
  match slot with
  | ByNumber es =>
      fold_left (fun sub_device '(key, device_vector_sub_entry) =>
                   setitem sub_device key (attached_entry device_vector_sub_entry))
                es (new_DeviceVector [])
  | One sub_entry => attached_entry sub_entry
  end.

(** *** The entry point: [fill_pvi_entries], lines 274-298

    The result is the outcome of the call, the state of [device] after it
    and the log of the connections.  Naming, line 298, belongs to the
    device classes and leaves the recorded structure as it is. *)

(** Lines 287-292. *)
Definition root_entry_of (device : PyObject) (root_pv : string) : PVIEntry :=
  mkPVIEntry [] (Some root_pv) device (Some (type_of_object device)).

Definition fill_pvi_entries (fuel : nat) (device : PyObject) (root_pv : string)
    (timeout : Timeout) (sim : bool) : Outcome unit * PyObject * list Fetch :=
  if sim then
    (_sim_common_blocks fuel device None, [])
  else
    match _get_pvi_entries fuel (root_entry_of device root_pv) timeout [] with
    | (Ok root_entry, log) => (Ok tt, _set_device_attributes root_entry, log)
    | (Raise e, log) => (Raise e, device, log)
    | (OutOfFuel, log) => (OutOfFuel, device, log)
    end.

End WithEnvironment.

(** ** Inputs for the examples

    [typing.get_type_hints] as CPython 3.11 computes it on the three
    kinds of hints: the annotations of a class and of its bases; for a
    subscripted [DeviceVector], which is a [dict] and so a
    [types.GenericAlias], the annotations of the body of [DeviceVector],
    which has none; a [TypeError] for every other subscripted generic and
    for a [Union].  [annotations] lists the classes of a program with what
    the function reports for each. *)

Definition not_annotated : Exn :=
  TypeError "is not a module, class, method, or function.".

Definition get_type_hints_in (annotations : list (string * list (string * PyType)))
    (t : PyType) : Exn + list (string * PyType) :=
  match t with
  | TClass c => inr (default [] (dict_get (cls_name c) annotations))
  | TAlias origin _ =>
      if decide (origin = DeviceVector) then inr [] else inl not_annotated
  | TUnion _ => inl not_annotated
  end.

Definition str : PyClass := mkClass "str" false.
Definition int : PyClass := mkClass "int" false.
Definition float : PyClass := mkClass "float" false.

(** The annotations of [Device] itself, inherited by every device class. *)
Definition Device_annotations : list (string * PyType) :=
  [("_name", TClass str); ("parent", TOptional (TClass Device))].

(** A remote side for the examples: each table answers after a delay, in
    seconds, and a connection whose timeout is shorter than the delay
    fails; an address that no table has never answers. *)
Definition tables_in (tables : list (string * (Z * PvaTable)))
    (pv : string) (timeout : Z) : Exn + PvaTable :=
  match dict_get pv tables with
  | Some (delay, table) =>
      if bool_decide (delay <= timeout) then inr table
      else inl (TransportError "TimeoutError")
  | None => inl (TransportError "TimeoutError")
  end.

(** A device class with one required child, [motor], of node type. *)
Definition Motor : PyClass := mkClass "Motor" false.
Definition Stage : PyClass := mkClass "Stage" false.

Definition new_object (cls : PyClass) : PyObject :=
  mkObject (no_arguments (TClass cls)) [] [].

(** The table with [x], [y1] and [y2] of the specification. *)
Definition xy_table : PvaTable :=
    [("x", [("r", "PV:X"); ("w", "PV:X")]);
     ("y1", [("rw", "PV:Y1")]);
     ("y2", [("rw", "PV:Y2")])].

(** A table with one nested table; the nested table answers after 20
    seconds. *)
Definition nested_tables : list (string * (Z * PvaTable)) :=
  [("DEV:PVI", (1, [("block", [("d", "DEV:BLOCK:PVI")])]));
   ("DEV:BLOCK:PVI", (20, [("value", [("rw", "DEV:BLOCK:VALUE")])]))].

(** A name with a line feed inside. *)
Definition a_newline_b : string :=
  String "a" (String "010" (String "b" EmptyString)).

(** The same class with an optional child. *)
Definition OptionalStage : PyClass := mkClass "OptionalStage" false.

(** Device classes with signals, vectors of signals and vectors of
    devices, two levels deep. *)
Definition Block1 : PyClass := mkClass "Block1" false.

Definition Block1_annotations : list (string * PyType) :=
  Device_annotations
  ++ [("device_vector_signal_rw", TAlias DeviceVector [TAlias SignalRW [TClass float]]);
      ("signal_rw", TAlias SignalRW [TClass int])].

Definition Block2_annotations : list (string * PyType) :=
  Device_annotations
  ++ [("device_vector", TAlias DeviceVector [TClass Block1]);
      ("device", TClass Block1);
      ("signal_rw", TAlias SignalRW [TClass int])].

(** A device class with one declared signal, and one whose declared name
    ends with a digit. *)
Definition Gauge : PyClass := mkClass "Gauge" false.

(** A device class with one child of class [Block1]. *)
Definition Holder : PyClass := mkClass "Holder" false.

Definition annotations : list (string * list (string * PyType)) :=
  [("Device", Device_annotations);
   ("DeviceVector", Device_annotations);
   ("Motor", Device_annotations);
   ("Stage", Device_annotations ++ [("motor", TClass Motor)]);
   ("OptionalStage", Device_annotations ++ [("motor", TOptional (TClass Motor))]);
   ("Block1", Block1_annotations);
   ("Block2", Block2_annotations);
   ("Holder", Device_annotations ++ [("device", TClass Block1)]);
   ("Gauge", Device_annotations ++ [("value", TAlias SignalRW [TClass float])]);
   ("Channel", Device_annotations
               ++ [("ch1", TAlias DeviceVector [TAlias SignalRW [TClass float]])])].

(** A table with one signal. *)
Definition speed_tables : list (string * (Z * PvaTable)) :=
  [("DEV:PVI", (1, [("speed", [("rw", "DEV:SPEED")])]))].

(** A table without children. *)
Definition empty_tables : list (string * (Z * PvaTable)) :=
  [("DEV:PVI", (1, []))].


(** A table whose child [device] is a nested table without children. *)
Definition holder_tables : list (string * (Z * PvaTable)) :=
  [("DEV:PVI", (1, [("device", [("d", "DEV:D:PVI")])]));
   ("DEV:D:PVI", (1, []))].


(** A table for [Block2]. *)
Definition block2_tables : list (string * (Z * PvaTable)) :=
  [("DEV:PVI", (1, [("device_vector1", [("d", "DEV:A:PVI")]);
                    ("device_vector2", [("d", "DEV:B:PVI")]);
                    ("device_vector3", [("d", "DEV:C:PVI")]);
                    ("device", [("d", "DEV:D:PVI")]);
                    ("signal_rw", [("rw", "DEV:SIGNAL")])]));
   ("DEV:A:PVI", (1, [("device_vector_signal_rw1", [("rw", "DEV:A:1")]);
                      ("signal_rw", [("r", "DEV:A:R"); ("w", "DEV:A:W")])]));
   ("DEV:B:PVI", (1, [("device_vector_signal_rw", [("rw", "DEV:B:1")]);
                      ("signal_rw", [("rw", "DEV:B:RW")])]));
   ("DEV:C:PVI", (1, []));
   ("DEV:D:PVI", (1, [("signal_rw", [("rw", "DEV:D:RW")]);
                      ("device_vector_signal_rw7", [("rw", "DEV:D:7")]);
                      ("more", [("x", "DEV:D:GO")])]))].

(** The environment of the examples: timeouts in seconds, ten seconds by
    default. *)
Definition example_hints : PyType -> Exn + list (string * PyType) :=
  get_type_hints_in annotations.

Definition discover (tables : list (string * (Z * PvaTable)))
    (device : PyObject) (root_pv : string) (timeout : Z)
  : Outcome unit * PyObject * list (string * Z) :=
  fill_pvi_entries 10 example_hints (tables_in tables) 20 device root_pv timeout false.

Definition simulate (device : PyObject) : Outcome unit * PyObject :=
  _sim_common_blocks example_hints 20 device None.

(** ** The words of the specification about names, as predicates *)

Fixpoint all_digits (s : string) : bool :=
  match s with
  | EmptyString => true
  | String c s' => is_digit c && all_digits s'
  end.

Fixpoint ends_with_digit (s : string) : bool :=
  match s with
  | EmptyString => false
  | String c EmptyString => is_digit c
  | String _ s' => ends_with_digit s'
  end.

Fixpoint has_newline (s : string) : bool :=
  match s with
  | EmptyString => false
  | String c s' => is_newline c || has_newline s'
  end.



(** ** The words of the specification about trees, as predicates

    An object is a collection when it is a [DeviceVector]; its members are
    then its values, and otherwise the members of an object are the
    object alone.  The name parser leaves a name whole when it returns the
    name itself and no number. *)

Definition is_collection (o : PyObject) : bool :=
  match type_of_object o with
  | TClass c => bool_decide (c = DeviceVector)
  | TAlias _ _ | TUnion _ => false
  end.

Definition members (o : PyObject) : list PyObject :=
  if is_collection o then (items o).*2 else [o].

Definition whole_name (name : string) : Prop :=
  _strip_number_from_string name = Ok (name, None).

(** [covers s d]: when [d] has attributes, every attribute of [s] is an
    attribute of [d], and, when the name is whole, the two are both
    collections or both not and every member of the one in [s] is covered
    by every member of the one in [d]. *)
Inductive covers : PyObject -> PyObject -> Prop :=
| covers_attrs (s d : PyObject) :
    (attrs d <> [] ->
     forall name cs, dict_get name (attrs s) = Some cs ->
       exists cd,
         dict_get name (attrs d) = Some cd
         /\ (whole_name name ->
             is_collection cs = is_collection cd
             /\ forall es ed, es ∈ members cs -> ed ∈ members cd -> covers es ed)) ->
    covers s d.

(** ** Auxiliary predicates of the proofs *)

(** The keys of [_pvi_mapping]. *)
Definition supported_access : list (gset string) :=
  [frozenset ["r"; "w"]; frozenset ["rw"]; frozenset ["r"];
   frozenset ["w"]; frozenset ["x"]].

(** A property of the entries below a slot. *)
Definition slot_all (P : PVIEntry -> Prop) (slot : Slot PVIEntry) : Prop :=
  match slot with
  | One e => P e
  | ByNumber es => Forall (fun kv => P kv.2) es
  end.



Section Covered.
Context {Timeout : Type}.
Variable get_type_hints : PyType -> Exn + list (string * PyType).


(** The call of line 193 or 195, as the loop of the builder with [fuel]
    makes it. *)
Definition sim_below (fuel : nat) : PyObject -> PyType -> Outcome PyObject :=
  fun d t => finished (_sim_common_blocks get_type_hints fuel d (Some t)).

(** The object attached for an entry stored alone under [name], declared
    with type [t], compares as [covers] asks with whatever the builder
    makes for [name]. *)
Definition entry_covered_one (name : string) (t : PyType) (e : PVIEntry) : Prop :=
  forall fuel cs,
    sim_sub_device (sim_below fuel) name t = Ok cs ->
    is_collection cs = is_collection (attached_entry e)
    /\ forall es ed, es ∈ members cs -> ed ∈ members (attached_entry e) -> covers es ed.

(** The same for an entry stored under a number. *)
Definition entry_covered_many (name : string) (t : PyType) (e : PVIEntry) : Prop :=
  forall fuel cs,
    sim_sub_device (sim_below fuel) name t = Ok cs ->
    is_collection cs = true
    /\ forall es, es ∈ members cs -> covers es (attached_entry e).

Definition slot_covered (name : string) (t : PyType) (slot : Slot PVIEntry) : Prop :=
  match slot with
  | One e => entry_covered_one name t e
  | ByNumber es => es <> [] /\ forall k e, (k, e) ∈ es -> entry_covered_many name t e
  end.

(** The invariant of the loop of line 217. *)
Definition subs_covered (hints : list (string * PyType))
    (subs : list (string * Slot PVIEntry)) : Prop :=
  forall name t slot,
    whole_name name -> dict_get name hints = Some t -> (name, slot) ∈ subs ->
    slot_covered name t slot.


End Covered.

(** ** Further predicates on names and entries *)

(** A line feed before the last character. *)
Fixpoint inner_newline (s : string) : bool :=
  match s with
  | EmptyString => false
  | String c s' =>
      match s' with
      | EmptyString => false
      | String _ _ => is_newline c || inner_newline s'
      end
  end.

(** The string without the line feed that ends it, if one does. *)
Fixpoint chomp (s : string) : string :=
  match s with
  | EmptyString => EmptyString
  | String c s' =>
      match s' with
      | EmptyString => if is_newline c then EmptyString else s
      | String _ _ => String c (chomp s')
      end
  end.

(** An entry that has children has a table address, and so have the
    entries below it. *)
Inductive addressed : PVIEntry -> Prop :=
| addressed_entry subs pv d t :
    (subs <> [] -> str_truthy pv = true) ->
    (forall name e, (name, One e) ∈ subs -> addressed e) ->
    (forall name es k e, (name, ByNumber es) ∈ subs -> (k, e) ∈ es -> addressed e) ->
    addressed (mkPVIEntry subs pv d t).

(** The children of a dictionary of entries are addressed. *)
Definition subs_addressed (subs : list (string * Slot PVIEntry)) : Prop :=
  forall name slot, (name, slot) ∈ subs -> slot_all addressed slot.

(** The exception of an item assignment on an entry, line 241. *)
Definition no_item_assignment : Exn :=
  TypeError "'PVIEntry' object does not support item assignment".

(** ** Further inputs for the examples *)

(** A device class whose second attribute is a vector of an optional
    type. *)
Definition Rack : PyClass := mkClass "Rack" false.

Definition Rack_annotations : list (string * PyType) :=
  Device_annotations
  ++ [("value", TAlias SignalRW [TClass float]);
      ("slots", TAlias DeviceVector [TOptional (TClass Block1)])].

Definition rack_hints : PyType -> Exn + list (string * PyType) :=
  get_type_hints_in [("Rack", Rack_annotations)].

(** The entry of a signal and the entry of a nested table without
    children, as the walk makes them. *)
Definition signal_entry (address : string) : PVIEntry :=
  mkPVIEntry [] None
    (mkObject (epics_signal_rw None (pva address) (pva address)) [] [])
    (Some (TClass Signal)).

Definition table_entry (address : string) : PVIEntry :=
  mkPVIEntry [] (Some address) (new_object Device) (Some (TClass Device)).

(** The nested walk of the examples. *)
Definition nested_walk (tables : list (string * (Z * PvaTable)))
    (sub_entry : PVIEntry) : @Walk Z PVIEntry :=
  _get_pvi_entries 10 example_hints (tables_in tables) 19 sub_entry 10.
(** * Properties *)

(** ** Ordered dictionaries *)

Section DictFacts.
Context {K V : Type} `{EqDecision K}.
Implicit Types (k : K) (v : V) (d : list (K * V)).

Lemma dict_get_set_eq k v d : dict_get k (dict_set k v d) = Some v.
Proof.
  induction d as [|[k' v'] d IH]; simpl.
  - by rewrite decide_True.
  - destruct (decide (k = k')) as [->|Hne]; simpl.
    + by rewrite decide_True.
    + by rewrite decide_False.
Qed.

Lemma dict_get_set_ne k k' v d :
  k <> k' -> dict_get k' (dict_set k v d) = dict_get k' d.
Proof.
  intros Hne. induction d as [|[k0 v0] d IH]; simpl.
  - rewrite decide_False; [done | congruence].
  - destruct (decide (k = k0)) as [->|Hne0]; simpl.
    + rewrite !decide_False; [done | congruence | congruence].
    + destruct (decide (k' = k0)); [done | exact IH].
Qed.

Lemma dict_get_None k d : dict_get k d = None <-> k ∉ dict_keys d.
Proof.
  unfold dict_keys. induction d as [|[k' v'] d IH]; simpl.
  - split; [intros _; apply not_elem_of_nil | done].
  - destruct (decide (k = k')) as [->|Hne].
    + split; [done | intros H; exfalso; apply H; left].
    + rewrite IH, not_elem_of_cons. tauto.
Qed.

Lemma dict_get_Some_keys k v d : dict_get k d = Some v -> k ∈ dict_keys d.
Proof.
  intros H. destruct (decide (k ∈ dict_keys d)) as [|Hn]; [done|].
  apply dict_get_None in Hn. congruence.
Qed.

Lemma dict_get_elem_of k v d : dict_get k d = Some v -> (k, v) ∈ d.
Proof.
  induction d as [|[k' v'] d IH]; simpl; [done|].
  destruct (decide (k = k')) as [->|Hne].
  - intros [= ->]. left.
  - intros H. right. by apply IH.
Qed.


End DictFacts.

(** ** The name parser *)

Lemma digit_not_newline c : is_digit c = true -> is_newline c = false.
Proof.
  unfold is_digit, is_newline. intros H.
  destruct (Ascii.eqb_spec c "010"%char) as [->|]; [|done].
  by vm_compute in H.
Qed.



(** The value is positional: a digit appended counts for units. *)
Lemma int_of_digits_snoc s c : forall acc,
  int_of_digits acc (s +:+ String c EmptyString)
  = 10 * int_of_digits acc s + digit_value c.
Proof. induction s as [|c' s IH]; simpl; intros acc; [done | apply IH]. Qed.

(** On a text without line feed, the second group and the anchor match
    exactly when the text is a run of digits, and take all of it. *)
Lemma match_digits_dollar_spec s :
  has_newline s = false ->
  match_digits_dollar s = if all_digits s then Some s else None.
Proof.
  induction s as [|c s IH]; simpl; [done|].
  intros Hnl. apply orb_false_elim in Hnl as [Hc Hs].
  specialize (IH Hs).
  destruct (is_digit c) eqn:Hd; simpl.
  - rewrite IH. destruct (all_digits s) eqn:Hall; [done|].
    destruct s; [done|]. done.
  - destruct s; [by rewrite Hc | done].
Qed.

Lemma re_match_spec s :
  has_newline s = false ->
  exists prefix digits,
    re_match s = Some (prefix, digits)
    /\ s = prefix +:+ digits
    /\ all_digits digits = true
    /\ ends_with_digit prefix = false.
Proof.
  induction s as [|c s IH]; intros Hnl.
  - by exists EmptyString, EmptyString.
  - pose proof (match_digits_dollar_spec _ Hnl) as Hm.
    simpl in Hnl. apply orb_false_elim in Hnl as [Hc Hs].
    destruct (IH Hs) as (prefix & digits & Hre & -> & Hall & Hend).
    cbn [re_match]. rewrite Hm.
    destruct (all_digits (String c (prefix +:+ digits))) eqn:Hd.
    + by exists EmptyString, (String c (prefix +:+ digits)).
    + rewrite Hc, Hre. exists (String c prefix), digits.
      repeat split; [done|].
      destruct prefix as [|c' prefix]; [|exact Hend].
      simpl in Hd. change (String.append EmptyString digits) with digits in Hd.
      by rewrite Hall, andb_true_r in Hd.
Qed.



(** The three names of the specification. *)
Example strip_det12 : _strip_number_from_string "det12" = Ok ("det", Some 12).
Proof. reflexivity. Qed.

Example strip_shutter : _strip_number_from_string "shutter" = Ok ("shutter", None).
Proof. reflexivity. Qed.

Example strip_7 : _strip_number_from_string "7" = Ok ("", Some 7).
Proof. reflexivity. Qed.


(** ** The signal factories *)

Lemma pvi_mapping_unsupported (key : gset string) :
  key ∉ supported_access -> _pvi_mapping !! key = None.
Proof.
  unfold supported_access. rewrite !not_elem_of_cons. intros (?&?&?&?&?&_).
  unfold _pvi_mapping.
  rewrite !lookup_insert_ne by (intros ?; congruence).
  apply lookup_empty.
Qed.

Lemma pvi_mapping_supported (key : gset string) :
  key ∈ supported_access -> is_Some (_pvi_mapping !! key).
Proof.
  unfold supported_access. rewrite !elem_of_cons.
  intros [->|[->|[->|[->|[->|H]]]]]; [by eexists..|].
  by apply elem_of_nil in H.
Qed.

(** A dictionary has as many values as its set of keys has members. *)
Lemma frozenset_length (keys l : list string) :
  NoDup keys -> NoDup l -> frozenset keys = frozenset l -> List.length keys = List.length l.
Proof.
  intros Hk Hl Heq. apply Permutation_length, NoDup_Permutation; [done..|].
  intros x. unfold frozenset in Heq.
  rewrite <- !(elem_of_list_to_set (C := gset string)). by rewrite Heq.
Qed.

Lemma values_of_keys (pva_entries : PvaEntries) (l : list string) :
  NoDup (dict_keys pva_entries) -> NoDup l ->
  frozenset (dict_keys pva_entries) = frozenset l ->
  List.length pva_entries.*2 = List.length l.
Proof.
  intros Hk Hl Heq. rewrite length_fmap.
  rewrite <- (frozenset_length _ _ Hk Hl Heq).
  unfold dict_keys. by rewrite length_fmap.
Qed.

Lemma NoDup_r_w : NoDup ["r"; "w"].
Proof. apply NoDup_cons. split; [|apply NoDup_singleton]. by intros [=]%list_elem_of_singleton. Qed.

Lemma NoDup_one (k : string) : NoDup [k].
Proof. apply NoDup_singleton. Qed.

Lemma pvi_mapping_entries :
  _pvi_mapping !! frozenset ["r"; "w"] = Some lambda_r_w
  /\ _pvi_mapping !! frozenset ["rw"] = Some lambda_rw
  /\ _pvi_mapping !! frozenset ["r"] = Some lambda_r
  /\ _pvi_mapping !! frozenset ["w"] = Some lambda_w
  /\ _pvi_mapping !! frozenset ["x"] = Some lambda_x.
Proof. repeat split; reflexivity. Qed.

Ltac one_value pva_entries Hk Heq :=
  let Hlen := fresh "Hlen" in
  pose proof (values_of_keys pva_entries _ Hk (NoDup_one _) Heq) as Hlen;
  unfold make_signal; cbv zeta; rewrite Heq;
  destruct (pva_entries.*2) as [|pv [|? ?]]; try discriminate Hlen;
  exists pv; split; reflexivity.

Lemma make_signal_supported (pva_entries : PvaEntries) (dtype : option PyType) :
  NoDup (dict_keys pva_entries) ->
  let key := frozenset (dict_keys pva_entries) in
  (key = frozenset ["r"; "w"] ->
     exists read_pv write_pv,
       pva_entries.*2 = [read_pv; write_pv]
       /\ make_signal pva_entries dtype
          = Ok (mkObject (epics_signal_rw dtype (pva read_pv) (pva write_pv)) [] []))
  /\ (key = frozenset ["rw"] ->
     exists read_write_pv,
       pva_entries.*2 = [read_write_pv]
       /\ make_signal pva_entries dtype
          = Ok (mkObject (epics_signal_rw dtype (pva read_write_pv) (pva read_write_pv)) [] []))
  /\ (key = frozenset ["r"] ->
     exists read_pv,
       pva_entries.*2 = [read_pv]
       /\ make_signal pva_entries dtype
          = Ok (mkObject (epics_signal_r dtype (pva read_pv)) [] []))
  /\ (key = frozenset ["w"] ->
     exists write_pv,
       pva_entries.*2 = [write_pv]
       /\ make_signal pva_entries dtype
          = Ok (mkObject (epics_signal_w dtype (pva write_pv)) [] []))
  /\ (key = frozenset ["x"] ->
     exists write_pv,
       pva_entries.*2 = [write_pv]
       /\ make_signal pva_entries dtype
          = Ok (mkObject (epics_signal_x (pva write_pv)) [] [])).
Proof.
  intros Hk key. subst key.
  repeat split; intros Heq.
  - pose proof (values_of_keys pva_entries _ Hk NoDup_r_w Heq) as Hlen.
    unfold make_signal. cbv zeta. rewrite Heq.
    destruct (pva_entries.*2) as [|read_pv [|write_pv [|? ?]]];
      try discriminate Hlen.
    exists read_pv, write_pv. split; reflexivity.
  - one_value pva_entries Hk Heq.
  - one_value pva_entries Hk Heq.
  - one_value pva_entries Hk Heq.
  - one_value pva_entries Hk Heq.
Qed.

Lemma make_signal_unsupported (pva_entries : PvaEntries) (dtype : option PyType) :
  frozenset (dict_keys pva_entries) ∉ supported_access ->
  make_signal pva_entries dtype
  = Raise (KeyError_access (frozenset (dict_keys pva_entries))).
Proof.
  intros H. unfold make_signal. cbv zeta. by rewrite (pvi_mapping_unsupported _ H).
Qed.

(** A set with the descriptor tag is not supported. *)
Lemma descriptor_unsupported (keys : list string) :
  "d" ∈ keys -> frozenset keys ∉ supported_access.
Proof.
  intros Hd. unfold supported_access. rewrite !not_elem_of_cons.
  assert (Hin : "d" ∈ frozenset keys) by (by apply elem_of_list_to_set).
  repeat split; try apply not_elem_of_nil;
    intros Heq; rewrite Heq in Hin; by vm_compute in Hin.
Qed.

(** ** The type resolver *)

Lemma parse_type_nested_table (number_suffix : option Z) :
  _parse_type true number_suffix None
  = Ok (bool_decide (number_suffix <> None), false, None, TClass Device).
Proof. reflexivity. Qed.

Lemma parse_type_bare_leaf (number_suffix : option Z) :
  _parse_type false number_suffix None = Ok (false, true, None, TClass Signal).
Proof. reflexivity. Qed.

Lemma signal_not_DeviceVector (c : PyClass) :
  cls_is_signal c = true -> class_object c <> class_object DeviceVector.
Proof. intros H [= ->]. discriminate H. Qed.

(** A declared signal type with a value type, alone, optional or in a
    vector. *)
Lemma parse_type_signal_with_dtype (is_pvi_table : bool) (number_suffix : option Z)
    (origin : PyClass) (dtype : PyType) (more : list PyType) :
  cls_is_signal origin = true ->
  let signal_t := TAlias origin (dtype :: more) in
  _parse_type is_pvi_table number_suffix (Some signal_t)
    = Ok (false, true, Some dtype, signal_t)
  /\ _parse_type is_pvi_table number_suffix (Some (TOptional signal_t))
    = Ok (false, true, Some dtype, signal_t)
  /\ _parse_type is_pvi_table number_suffix (Some (TAlias DeviceVector [signal_t]))
    = Ok (true, true, Some dtype, signal_t).
Proof.
  intros Hs signal_t. pose proof (signal_not_DeviceVector _ Hs) as Hne.
  unfold _parse_type, _strip_union, _strip_device_vector, is_signal_type; simpl.
  rewrite !decide_False by congruence. simpl. rewrite Hs. simpl.
  repeat split.
Qed.

(** A declared class that is not a signal: a node type. *)
Lemma parse_type_node_class (is_pvi_table : bool) (number_suffix : option Z)
    (c : PyClass) :
  cls_is_signal c = false -> c <> NoneType ->
  _parse_type is_pvi_table number_suffix (Some (TClass c))
    = Ok (false, false, None, TClass c)
  /\ _parse_type is_pvi_table number_suffix (Some (TOptional (TClass c)))
    = Ok (false, false, None, TClass c)
  /\ _parse_type is_pvi_table number_suffix (Some (TAlias DeviceVector [TClass c]))
    = Ok (true, false, None, TClass c).
Proof.
  intros Hs Hn.
  unfold _parse_type, _strip_union, _strip_device_vector, is_signal_type; simpl.
  rewrite Hs. repeat split.
  rewrite bool_decide_eq_false_2 by done. simpl. by rewrite Hs.
Qed.

(** C4, where the code departs from it.  A declared signal class without
    value type, which line 124 announces as the form [Signal], makes line
    126 raise [IndexError]: the resolver returns nothing.  The simulated
    construction, lines 165 and 185, reads the same hint with a guard and
    records no value type. *)
Theorem parse_type_signal_without_dtype :
  _parse_type false None (Some (TClass SignalX)) = Raise IndexError
  /\ sim_sub_device (fun d _ => Ok d) "signal_x" (TClass SignalX)
     = Ok (new_sim_signal (TClass SignalX) None "signal_x").
Proof. split; reflexivity. Qed.

(** The same for every signal class, declared alone, optional or in a
    vector. *)
Lemma parse_type_signal_class_raises (is_pvi_table : bool)
    (number_suffix : option Z) (c : PyClass) :
  cls_is_signal c = true ->
  _parse_type is_pvi_table number_suffix (Some (TClass c)) = Raise IndexError
  /\ _parse_type is_pvi_table number_suffix (Some (TOptional (TClass c)))
     = Raise IndexError
  /\ _parse_type is_pvi_table number_suffix (Some (TAlias DeviceVector [TClass c]))
     = Raise IndexError.
Proof.
  intros Hs. assert (c <> NoneType) as Hn by (intros ->; discriminate Hs).
  unfold _parse_type, _strip_union, _strip_device_vector, is_signal_type; simpl.
  rewrite Hs. repeat split.
  rewrite bool_decide_eq_false_2 by done. simpl. by rewrite Hs.
Qed.

(** ** Verification *)


Lemma dict_get_map_values {K A B : Type} `{EqDecision K} (f : A -> B)
    (k : K) (d : list (K * A)) :
  dict_get k (map (fun '(k', a) => (k', f a)) d) = f <$> dict_get k d.
Proof.
  induction d as [|[k' a] d IH]; simpl; [done|].
  by destruct (decide (k = k')).
Qed.

Lemma get_origin_never_Optional (t : PyType) :
  bool_decide (get_origin t <> Some typing_Optional) = true.
Proof. apply bool_decide_eq_true. by destruct t. Qed.

Section VerifyFacts.
Variable get_type_hints : PyType -> Exn + list (string * PyType).

Local Abbreviation verify := (_verify_common_blocks get_type_hints).
Local Abbreviation verify_stored subs :=
  (fun name => verify_slot get_type_hints <$> dict_get name subs).

Lemma verify_loop_ext keys (f g : string -> option (PyType -> Outcome unit)) hints :
  (forall n, f n = g n) ->
  verify_loop keys f hints = verify_loop keys g hints.
Proof.
  intros Hext. induction hints as [|[n t] hints IH]; [done|].
  cbn [verify_loop]. unfold verify_sub_device. by rewrite Hext, IH.
Qed.

(** The function as the source writes it. *)
Lemma verify_common_blocks_eq (entry : PVIEntry) (common_device : PyType) :
  verify entry common_device
  = match sub_entries entry with
    | [] => Ok tt
    | subs =>
        common_sub_devices ← returned (get_type_hints common_device);
        verify_loop (dict_keys subs) (verify_stored subs) common_sub_devices
    end.
Proof.
  destruct entry as [[|ns subs] pv d t]; [done|].
  cbn [_verify_common_blocks sub_entries].
  destruct (get_type_hints common_device) as [e|hints]; [done|].
  cbn [returned mbind outcome_bind].
  apply verify_loop_ext. intros n.
  by rewrite <- dict_get_map_values.
Qed.






(** C10.  An entry without children verifies against every expected type,
    whatever the annotations of that type are and even when reading them
    would raise: line 77 returns before line 78 reads them. *)
Theorem verify_entry_without_children (entry : PVIEntry) (common_device : PyType) :
  sub_entries entry = [] ->
  verify entry common_device = Ok tt.
Proof. intros H. rewrite verify_common_blocks_eq. by rewrite H. Qed.


End VerifyFacts.

(** ** Discovery *)

Arguments _verify_common_blocks : simpl never.
Arguments set_sub_entries : simpl never.

Section WalkFacts.
Context {Timeout : Type}.
Variable DEFAULT_TIMEOUT : Timeout.
Variable get_type_hints : PyType -> Exn + list (string * PyType).
Variable pvi_table_of : string -> Timeout -> Exn + PvaTable.

Local Abbreviation verify := (_verify_common_blocks get_type_hints).
Local Abbreviation verify_stored subs :=
  (fun name => verify_slot get_type_hints <$> dict_get name subs).
Local Abbreviation walk :=
  (_get_pvi_entries DEFAULT_TIMEOUT get_type_hints pvi_table_of).
Local Abbreviation fill :=
  (fill_pvi_entries DEFAULT_TIMEOUT get_type_hints pvi_table_of).
Local Abbreviation nested fuel :=
  (fun sub_entry : PVIEntry => walk fuel sub_entry DEFAULT_TIMEOUT).

Implicit Types (log : list (@Fetch Timeout)) (entry : PVIEntry)
  (subs : list (string * Slot PVIEntry)).

Lemma walk_loop_app (recurse : PVIEntry -> Walk PVIEntry) hints
    (pre post : PvaTable) subs log :
  walk_loop recurse hints (pre ++ post) subs log
  = match walk_loop recurse hints pre subs log with
    | (Ok subs', log') => walk_loop recurse hints post subs' log'
    | (Raise e, log') => (Raise e, log')
    | (OutOfFuel, log') => (OutOfFuel, log')
    end.
Proof.
  revert subs log. induction pre as [|[n e] pre IH]; intros subs log; [done|].
  simpl. unfold walk_bind.
  destruct (walk_child recurse hints subs n e log) as [[subs'| |] log'];
    [apply IH | done..].
Qed.

(** One level of the walk, after the test of line 202, the read of lines
    205-212 and the annotations of lines 213-215. *)
Lemma get_pvi_entries_level (fuel : nat) entry (timeout : Timeout) log
    (table : PvaTable) (hints : list (string * PyType)) :
  not_a_pvi_table (pvi_pv entry) = false ->
  pvi_table_of (default "" (pvi_pv entry)) timeout = inr table ->
  hints_for get_type_hints (common_device_type entry) = Ok hints ->
  walk (S fuel) entry timeout log
  = match walk_loop (nested fuel) hints table (sub_entries entry)
            (log ++ [(default "" (pvi_pv entry), timeout)]) with
    | (Ok subs, log') =>
        match common_device_type entry with
        | Some t =>
            match verify (set_sub_entries entry subs) t with
            | Ok _ => (Ok (set_sub_entries entry subs), log')
            | Raise e => (Raise e, log')
            | OutOfFuel => (OutOfFuel, log')
            end
        | None => (Ok (set_sub_entries entry subs), log')
        end
    | (Raise e, log') => (Raise e, log')
    | (OutOfFuel, log') => (OutOfFuel, log')
    end.
Proof.
  intros Htable Hfetch Hhints. cbn [_get_pvi_entries]. rewrite Htable.
  unfold walk_bind, fetch_pvi, lift. rewrite Hfetch, Hhints. simpl.
  destruct (walk_loop _ _ _ _ _) as [[subs| |] log']; [|done..].
  change (common_device_type (set_sub_entries entry subs))
    with (common_device_type entry).
  destruct (common_device_type entry) as [t|]; [|done].
  unfold walk_bind, lift, walk_ret.
  by destruct (verify _ _) as [[]| |].
Qed.




Lemma walk_child_unsupported (recurse : PVIEntry -> Walk PVIEntry) hints subs
    (sub_name : string) (pva_entries : PvaEntries) log
    (base : string) (num : option Z) (vec : bool) (dtype : option PyType) (ty : PyType) :
  _strip_number_from_string sub_name = Ok (base, num) ->
  _parse_type (is_pvi_table_child pva_entries.*2) num (dict_get base hints)
    = Ok (vec, true, dtype, ty) ->
  frozenset (dict_keys pva_entries) ∉ supported_access ->
  walk_child recurse hints subs sub_name pva_entries log
  = (Raise (KeyError_access (frozenset (dict_keys pva_entries))), log).
Proof.
  intros Hs Hp Hk. unfold walk_child, walk_bind, lift.
  by rewrite Hs, Hp, (make_signal_unsupported _ _ Hk).
Qed.

(** C3.  The factory is found by the exact set of the access tags of the
    child.  The five sets of the table build, from the addresses in the
    order of the remote table: a read/write signal on two addresses, a
    read/write signal on one address used for both, a read signal, a write
    signal, and a trigger signal that takes no data type.  Every other set
    raises the [KeyError] of line 227, and the call of the walk in which the
    child is met, at any level, raises it too; at the root the entry point
    raises it and leaves the device as it was. *)
Theorem signal_factory_exact (pva_entries : PvaEntries) (dtype : option PyType) :
  NoDup (dict_keys pva_entries) ->
  let key := frozenset (dict_keys pva_entries) in
  (key = frozenset ["r"; "w"] ->
     exists read_pv write_pv,
       pva_entries.*2 = [read_pv; write_pv]
       /\ make_signal pva_entries dtype
          = Ok (mkObject (epics_signal_rw dtype (pva read_pv) (pva write_pv)) [] []))
  /\ (key = frozenset ["rw"] ->
     exists read_write_pv,
       pva_entries.*2 = [read_write_pv]
       /\ make_signal pva_entries dtype
          = Ok (mkObject (epics_signal_rw dtype (pva read_write_pv) (pva read_write_pv)) [] []))
  /\ (key = frozenset ["r"] ->
     exists read_pv,
       pva_entries.*2 = [read_pv]
       /\ make_signal pva_entries dtype
          = Ok (mkObject (epics_signal_r dtype (pva read_pv)) [] []))
  /\ (key = frozenset ["w"] ->
     exists write_pv,
       pva_entries.*2 = [write_pv]
       /\ make_signal pva_entries dtype
          = Ok (mkObject (epics_signal_w dtype (pva write_pv)) [] []))
  /\ (key = frozenset ["x"] ->
     exists write_pv,
       pva_entries.*2 = [write_pv]
       /\ make_signal pva_entries dtype
          = Ok (mkObject (epics_signal_x (pva write_pv)) [] []))
  /\ (key ∉ supported_access ->
     make_signal pva_entries dtype = Raise (KeyError_access key)
     /\ forall (fuel : nat) entry (timeout : Timeout) log (pre post : PvaTable)
          (hints : list (string * PyType)) (sub_name : string) subs log'
          (base : string) (num : option Z) (vec : bool) (ty : PyType),
         not_a_pvi_table (pvi_pv entry) = false ->
         pvi_table_of (default "" (pvi_pv entry)) timeout
           = inr (pre ++ (sub_name, pva_entries) :: post) ->
         hints_for get_type_hints (common_device_type entry) = Ok hints ->
         walk_loop (nested fuel) hints pre (sub_entries entry)
           (log ++ [(default "" (pvi_pv entry), timeout)]) = (Ok subs, log') ->
         _strip_number_from_string sub_name = Ok (base, num) ->
         _parse_type (is_pvi_table_child pva_entries.*2) num (dict_get base hints)
           = Ok (vec, true, dtype, ty) ->
         walk (S fuel) entry timeout log = (Raise (KeyError_access key), log')
         /\ forall device root_pv,
              entry = root_entry_of device root_pv -> log = [] ->
              fill (S fuel) device root_pv timeout false
              = (Raise (KeyError_access key), device, log')).
Proof.
  intros Hk key.
  destruct (make_signal_supported pva_entries dtype Hk) as (H1 & H2 & H3 & H4 & H5).
  do 5 (split; [assumption|]).
  intros Hun. split; [by apply make_signal_unsupported|].
  intros fuel entry timeout log pre post hints sub_name subs log' base num vec ty
    Htable Hfetch Hhints Hpre Hsplit Hparse.
  assert (Hwalk : walk (S fuel) entry timeout log
                  = (Raise (KeyError_access key), log')).
  { rewrite (get_pvi_entries_level fuel entry timeout log _ hints Htable Hfetch Hhints).
    rewrite walk_loop_app, Hpre. cbn [walk_loop]. unfold walk_bind.
    by rewrite (walk_child_unsupported _ _ _ _ _ _ _ _ _ _ _ Hsplit Hparse Hun). }
  split; [exact Hwalk|].
  intros device root_pv -> ->. unfold fill_pvi_entries. by rewrite Hwalk.
Qed.

(** Every connection of a walk other than its first is made with
    [DEFAULT_TIMEOUT]: line 249 passes no timeout. *)
Local Abbreviation with_default new :=
  (Forall (fun f : @Fetch Timeout => f.2 = DEFAULT_TIMEOUT) new).

Lemma walk_child_log (recurse : PVIEntry -> Walk PVIEntry) hints subs
    (sub_name : string) (pva_entries : PvaEntries) log r log' :
  (forall e l r' l', recurse e l = (r', l') ->
                     exists new, l' = l ++ new /\ with_default new) ->
  walk_child recurse hints subs sub_name pva_entries log = (r, log') ->
  exists new, log' = log ++ new /\ with_default new.
Proof.
  intros Hrec. unfold walk_child, walk_bind, lift, walk_ret.
  assert (Hnil : exists new, log = log ++ new /\ with_default new).
  { exists []. split; [by rewrite app_nil_r | constructor]. }
  intros H.
  repeat (case_match; simplify_eq; try done);
    match goal with
    | Hr : recurse _ _ = _ |- _ => exact (Hrec _ _ _ _ Hr)
    end.
Qed.

Lemma walk_loop_log (recurse : PVIEntry -> Walk PVIEntry) hints
    (table : PvaTable) : forall subs log r log',
  (forall e l r' l', recurse e l = (r', l') ->
                     exists new, l' = l ++ new /\ with_default new) ->
  walk_loop recurse hints table subs log = (r, log') ->
  exists new, log' = log ++ new /\ with_default new.
Proof.
  induction table as [|[n e] table IH]; intros subs log r log' Hrec; simpl.
  - intros [= <- <-]. exists []. split; [by rewrite app_nil_r | constructor].
  - unfold walk_bind.
    destruct (walk_child recurse hints subs n e log) as [o l1] eqn:Hchild.
    destruct (walk_child_log _ _ _ _ _ _ _ _ Hrec Hchild) as (new1 & -> & Hd1).
    destruct o as [subs'| |]; [|intros [= <- <-]; eauto..].
    intros Hloop.
    destruct (IH _ _ _ _ Hrec Hloop) as (new2 & -> & Hd2).
    exists (new1 ++ new2). split; [by rewrite app_assoc|].
    by apply Forall_app.
Qed.

Lemma nested_fetches_use_default (fuel : nat) :
  forall entry (timeout : Timeout) log r log',
    walk fuel entry timeout log = (r, log') ->
    log' = log
    \/ exists later,
         log' = log ++ (default "" (pvi_pv entry), timeout) :: later
         /\ with_default later.
Proof.
  induction fuel as [|fuel IH]; intros entry timeout log r log'.
  - intros [= <- <-]. by left.
  - cbn [_get_pvi_entries].
    destruct (not_a_pvi_table _); [intros [= <- <-]; by left|].
    unfold walk_bind at 1. unfold fetch_pvi at 1.
    destruct (pvi_table_of _ _) as [e|table]; cbn [returned].
    { intros [= <- <-]. right. exists []. split; [done | constructor]. }
    unfold walk_bind at 1. unfold lift at 1.
    destruct (hints_for _ _) as [hints|e|].
    2,3: intros [= <- <-]; right; exists []; split; [done | constructor].
    unfold walk_bind at 1.
    destruct (walk_loop _ _ _ _ _) as [o l1] eqn:Hloop.
    apply walk_loop_log in Hloop as (new & -> & Hnew).
    2:{ intros e l r' l' Hr. destruct (IH _ _ _ _ _ Hr) as [->|(later & -> & Hl)].
        - exists []. split; [by rewrite app_nil_r | constructor].
        - exists ((default "" (pvi_pv e), DEFAULT_TIMEOUT) :: later).
          split; [done|]. by constructor. }
    assert (Hend : (log ++ [(default "" (pvi_pv entry), timeout)]) ++ new
                   = log ++ (default "" (pvi_pv entry), timeout) :: new).
    { by rewrite <- app_assoc. }
    destruct o as [subs| |]; [|intros [= <- <-]; right; eauto..].
    destruct (common_device_type _); unfold walk_bind, lift, walk_ret;
      [destruct (verify _ _)|]; intros [= <- <-]; right; eauto.
Qed.

(** A child without declared type that is not a nested table becomes a
    signal stored under its full name, whatever digits end the name. *)
Lemma walk_child_bare_leaf (recurse : PVIEntry -> Walk PVIEntry) hints subs
    (sub_name : string) (pva_entries : PvaEntries) log
    (base : string) (num : option Z) (signal : PyObject) :
  is_pvi_table_child pva_entries.*2 = false ->
  _strip_number_from_string sub_name = Ok (base, num) ->
  dict_get base hints = None ->
  make_signal pva_entries None = Ok signal ->
  walk_child recurse hints subs sub_name pva_entries log
  = (Ok (dict_set sub_name (One (mkPVIEntry [] None signal (Some (TClass Signal)))) subs),
     log).
Proof.
  intros Htable Hsplit Hhint Hsignal. unfold walk_child, walk_bind, lift.
  rewrite Hsplit, Htable, Hhint. cbn [_parse_type]. by rewrite Hsignal.
Qed.

Lemma verify_loop_all_skipped keys stored (hints : list (string * PyType)) :
  (forall n t, (n, t) ∈ hints -> skipped n = true) ->
  verify_loop keys stored hints = Ok tt.
Proof.
  induction hints as [|[n t] hints IH]; intros Hall; [done|].
  cbn [verify_loop]. unfold verify_sub_device.
  rewrite (Hall n t) by left. simpl. apply IH.
  intros n' t' Hin. apply (Hall n' t'). by right.
Qed.

Lemma not_declared (hints : list (string * PyType)) (name : string) :
  (forall n t, (n, t) ∈ hints -> skipped n = true) ->
  skipped name = false ->
  dict_get name hints = None.
Proof.
  intros Hall Hname. destruct (dict_get name hints) as [t|] eqn:Hget; [|done].
  apply dict_get_elem_of in Hget. rewrite (Hall _ _ Hget) in Hname. done.
Qed.

(** C6, as the code has it.  On a device whose class declares no child,
    the discovery of the table with [x], [y1] and [y2] sets three
    attributes on the device, in this order: [x], a read/write signal on
    the two addresses of [x], and [y1] and [y2], each a read/write signal
    on its one address and each under its own full name. *)
Theorem discover_x_y1_y2 (fuel : nat) (device : PyObject) (root_pv : string)
    (timeout : Timeout) (hints : list (string * PyType)) :
  not_a_pvi_table (Some root_pv) = false ->
  pvi_table_of root_pv timeout = inr xy_table ->
  get_type_hints (type_of_object device) = inr hints ->
  (forall n t, (n, t) ∈ hints -> skipped n = true) ->
  fill (S fuel) device root_pv timeout false
  = (Ok tt,
     setattr
       (setattr
          (setattr device "x"
             (mkObject (epics_signal_rw None "pva://PV:X" "pva://PV:X") [] []))
          "y1" (mkObject (epics_signal_rw None "pva://PV:Y1" "pva://PV:Y1") [] []))
       "y2" (mkObject (epics_signal_rw None "pva://PV:Y2" "pva://PV:Y2") [] []),
     [(root_pv, timeout)]).
Proof.
  intros Hpv Hfetch Hhints Hall.
  unfold fill_pvi_entries.
  rewrite (get_pvi_entries_level fuel _ timeout [] xy_table hints); try done.
  2:{ simpl. by rewrite Hhints. }
  unfold xy_table. cbn [walk_loop root_entry_of sub_entries]. unfold walk_bind.
  rewrite (walk_child_bare_leaf _ _ _ "x" _ _ "x" None
             (mkObject (epics_signal_rw None "pva://PV:X" "pva://PV:X") [] []));
    [|done|done|by apply not_declared|done].
  rewrite (walk_child_bare_leaf _ _ _ "y1" _ _ "y" (Some 1)
             (mkObject (epics_signal_rw None "pva://PV:Y1" "pva://PV:Y1") [] []));
    [|done|done|by apply not_declared|done].
  rewrite (walk_child_bare_leaf _ _ _ "y2" _ _ "y" (Some 2)
             (mkObject (epics_signal_rw None "pva://PV:Y2" "pva://PV:Y2") [] []));
    [|done|done|by apply not_declared|done].
  unfold walk_ret, root_entry_of. cbn [common_device_type pvi_pv].
  set (subs := dict_set "y2" _ _).
  assert (Hverify : verify (set_sub_entries (mkPVIEntry [] (Some root_pv) device
                              (Some (type_of_object device))) subs)
                      (type_of_object device) = Ok tt).
  { rewrite verify_common_blocks_eq.
    replace (sub_entries _) with subs by reflexivity.
    destruct subs; [done|].
    rewrite Hhints. cbn [returned mbind outcome_bind].
    by apply verify_loop_all_skipped. }
  rewrite Hverify. reflexivity.
Qed.

End WalkFacts.

(** ** Simulation *)

Section SimFacts.
Variable get_type_hints : PyType -> Exn + list (string * PyType).

Local Abbreviation sim := (_sim_common_blocks get_type_hints).

Implicit Types (device : PyObject) (hints : list (string * PyType)).

Lemma setattr_get (device : PyObject) (name : string) (value : PyObject) :
  dict_get name (attrs (setattr device name value)) = Some value.
Proof. destruct device. apply dict_get_set_eq. Qed.

Lemma setattr_get_ne (device : PyObject) (name name' : string) (value : PyObject) :
  name <> name' ->
  dict_get name' (attrs (setattr device name value)) = dict_get name' (attrs device).
Proof. destruct device. apply dict_get_set_ne. Qed.







End SimFacts.

(** ** Simulated and discovered trees *)

Lemma made_by_setattr (o : PyObject) name value :
  made_by (setattr o name value) = made_by o.
Proof. by destruct o. Qed.

Lemma items_setattr (o : PyObject) name value :
  items (setattr o name value) = items o.
Proof. by destruct o. Qed.

Lemma made_by_setitem (o : PyObject) key value :
  made_by (setitem o key value) = made_by o.
Proof. by destruct o. Qed.




Lemma dict_set_elem_of {K V : Type} `{EqDecision K} (k k' : K) (v v' : V)
    (d : list (K * V)) :
  (k', v') ∈ dict_set k v d -> (k', v') = (k, v) \/ (k', v') ∈ d.
Proof.
  induction d as [|[k0 v0] d IH]; simpl.
  - intros ->%list_elem_of_singleton. by left.
  - destruct (decide (k = k0)) as [->|Hne].
    + intros [->|Hin]%elem_of_cons; [by left | right; by right].
    + intros [->|Hin]%elem_of_cons; [right; by left|].
      destruct (IH Hin) as [?|?]; [by left | right; by right].
Qed.


Lemma dict_set_keys_elem_of {K V : Type} `{EqDecision K} (k k' : K) (v : V)
    (d : list (K * V)) :
  k' ∈ dict_keys (dict_set k v d) <-> k' = k \/ k' ∈ dict_keys d.
Proof.
  unfold dict_keys. induction d as [|[k0 v0] d IH]; simpl.
  - rewrite list_elem_of_singleton. split; [by left | intros [?|H]; [done|]].
    by apply elem_of_nil in H.
  - destruct (decide (k = k0)) as [->|Hne]; simpl.
    + rewrite !elem_of_cons. tauto.
    + rewrite !elem_of_cons, IH. tauto.
Qed.

(** *** What attachment makes of an entry *)


Section Attached.
Implicit Types (subs : list (string * Slot PVIEntry)) (o : PyObject).

Local Abbreviation attach_all subs o :=
  (fold_left (fun entry_device '(sub_name, slot) =>
                setattr entry_device sub_name (attached_slot slot)) subs o).

Local Abbreviation put_all es o :=
  (fold_left (fun sub_device '(key, device_vector_sub_entry) =>
                setitem sub_device key (attached_entry device_vector_sub_entry))
             es o).






Lemma put_all_made_by (es : list (Z * PVIEntry)) : forall o,
  made_by (put_all es o) = made_by o.
Proof.
  induction es as [|[k e] es IH]; intros o; simpl; [done|].
  by rewrite IH, made_by_setitem.
Qed.





End Attached.

(** *** What the simulation leaves of the device it fills *)

Section SimShape.
Variable get_type_hints : PyType -> Exn + list (string * PyType).

Local Abbreviation sim := (_sim_common_blocks get_type_hints).

Lemma sim_loop_keeps (rec : PyObject -> PyType -> Outcome PyObject)
    (hints : list (string * PyType)) : forall device r device',
  sim_loop rec hints device = (r, device') ->
  made_by device' = made_by device /\ items device' = items device.
Proof.
  induction hints as [|[n t] hints IH]; intros device r device'; simpl.
  - by intros [= _ <-].
  - destruct (skipped n); [apply IH|].
    destruct (sim_sub_device rec n t) as [sub| |]; [|by intros [= _ <-]..].
    intros [Hm Hi]%IH. by rewrite Hm, Hi, made_by_setattr, items_setattr.
Qed.

Lemma sim_keeps (fuel : nat) (device : PyObject) (stripped_type : option PyType)
    r device' :
  sim fuel device stripped_type = (r, device') ->
  made_by device' = made_by device /\ items device' = items device.
Proof.
  destruct fuel as [|fuel]; simpl; [by intros [= _ <-]|].
  destruct (get_type_hints _) as [e|hints]; [by intros [= _ <-]|].
  apply sim_loop_keeps.
Qed.


End SimShape.

(** *** The resolver and the builder read a declared type alike *)


Lemma parse_type_declared_inv (b : bool) (n : option Z) (t : PyType)
    (vec sig : bool) (dtype : option PyType) (t' : PyType) :
  _parse_type b n (Some t) = Ok (vec, sig, dtype, t') ->
  _strip_device_vector (_strip_union t) = Ok (vec, t')
  /\ is_signal_type t' = Ok sig.
Proof.
  unfold _parse_type.
  destruct (_strip_device_vector _) as [[v t0]| |]; simpl; [|done..].
  destruct (is_signal_type t0) as [[|]| |] eqn:Hs; simpl;
    [|by intros [= <- <- _ <-]|done..].
  destruct (get_args t0); [done|]. by intros [= <- <- _ <-].
Qed.








(** *** Every simulated attribute is a discovered attribute *)

Section Covers.
Context {Timeout : Type}.
Variable DEFAULT_TIMEOUT : Timeout.
Variable get_type_hints : PyType -> Exn + list (string * PyType).
Variable pvi_table_of : string -> Timeout -> Exn + PvaTable.

(** [typing.get_type_hints] returns a dictionary. *)
Hypothesis hints_NoDup :
  forall t hints, get_type_hints t = inr hints -> NoDup (dict_keys hints).

Local Abbreviation verify := (_verify_common_blocks get_type_hints).
Local Abbreviation sim := (_sim_common_blocks get_type_hints).
Local Abbreviation walk :=
  (_get_pvi_entries DEFAULT_TIMEOUT get_type_hints pvi_table_of).
Local Abbreviation fill :=
  (fill_pvi_entries DEFAULT_TIMEOUT get_type_hints pvi_table_of).
Local Abbreviation covered_one := (entry_covered_one get_type_hints).
Local Abbreviation covered_many := (entry_covered_many get_type_hints).
Local Abbreviation all_covered := (subs_covered get_type_hints).

Implicit Types (log : list (@Fetch Timeout)) (entry : PVIEntry)
  (subs : list (string * Slot PVIEntry)) (hints : list (string * PyType)).









End Covers.

(** ** The statements on the example inputs *)

Lemma verify_entry_without_children_witness :
  sub_entries (root_entry_of (new_object Stage) "DEV:PVI") = []
  /\ _verify_common_blocks example_hints
       (root_entry_of (new_object Stage) "DEV:PVI") (TClass Stage) = Ok tt.
Proof.
  split; [reflexivity|].
  apply (verify_entry_without_children example_hints). reflexivity.
Defined.


(** Line 83 compares the origin of the hint with [typing.Optional], which
    no origin is: an optional attribute that is missing raises like a
    required one. *)
Lemma discover_optional_child_missing :
  discover speed_tables (new_object OptionalStage) "DEV:PVI" 5
  = (Raise (RuntimeError_not_provided "motor" UnionGenericAlias_type),
     new_object OptionalStage, [("DEV:PVI", 5)]).
Proof. reflexivity. Qed.



(** C7, where the code departs from it.  The device is discovered with a
    timeout of 30 seconds and its nested table answers after 20 seconds.
    The connection to the root table is made with the 30 seconds of the
    caller, the connection to the nested table with the 10 seconds of
    [DEFAULT_TIMEOUT], and the call fails on a timeout that the caller did
    not ask for. *)
Theorem nested_fetch_ignores_timeout :
  discover nested_tables (new_object Device) "DEV:PVI" 30
  = (Raise (TransportError "TimeoutError"), new_object Device,
     [("DEV:PVI", 30); ("DEV:BLOCK:PVI", 10)]).
Proof. reflexivity. Qed.

Lemma signal_factory_exact_witness :
  make_signal [("r", "PV:R"); ("w", "PV:W")] None
  = Ok (mkObject (epics_signal_rw None "pva://PV:R" "pva://PV:W") [] []).
Proof.
  destruct (signal_factory_exact 10 example_hints (tables_in empty_tables)
              [("r", "PV:R"); ("w", "PV:W")] None)
    as (Hr_w & _).
  - apply NoDup_r_w.
  - destruct (Hr_w eq_refl) as (read_pv & write_pv & [= <- <-] & Hmake).
    exact Hmake.
Defined.

Lemma discover_x_y1_y2_witness :
  discover [("DEV:PVI", (1, xy_table))] (new_object Device) "DEV:PVI" 5
  = (Ok tt,
     mkObject (no_arguments (TClass Device))
       [("x", mkObject (epics_signal_rw None "pva://PV:X" "pva://PV:X") [] []);
        ("y1", mkObject (epics_signal_rw None "pva://PV:Y1" "pva://PV:Y1") [] []);
        ("y2", mkObject (epics_signal_rw None "pva://PV:Y2" "pva://PV:Y2") [] [])]
       [],
     [("DEV:PVI", 5)]).
Proof.
  apply (discover_x_y1_y2 10 example_hints
           (tables_in [("DEV:PVI", (1, xy_table))]) 19 (new_object Device)
           "DEV:PVI" 5 Device_annotations); try reflexivity.
  intros n t Hin.
  apply elem_of_cons in Hin as [[= -> ->]|Hin]; [reflexivity|].
  apply list_elem_of_singleton in Hin as [= -> ->]. reflexivity.
Defined.

(** C6 as stated does not hold: the device gets no attribute [y]; [y1] and
    [y2] are two attributes, each a signal and neither a collection. *)
Lemma discover_x_y1_y2_no_collection :
  let device' := (discover [("DEV:PVI", (1, xy_table))]
                    (new_object Device) "DEV:PVI" 5).1.2 in
  dict_get "y" (attrs device') = None
  /\ dict_get "y1" (attrs device')
     = Some (mkObject (epics_signal_rw None "pva://PV:Y1" "pva://PV:Y1") [] [])
  /\ dict_get "y2" (attrs device')
     = Some (mkObject (epics_signal_rw None "pva://PV:Y2" "pva://PV:Y2") [] []).
Proof. repeat split. Qed.







(** ** More on the name parser *)











(** What the second group and the anchor match when a line feed ends the
    text. *)
Lemma match_digits_dollar_newline (s : string) :
  has_newline s = false ->
  match_digits_dollar (s +:+ String "010" EmptyString)
  = if all_digits s then Some s else None.
Proof.
  induction s as [|c s IH]; [done|].
  simpl. intros [Hc Hs]%orb_false_elim. specialize (IH Hs).
  change (String.append s (String "010" EmptyString))
    with (s +:+ String "010" EmptyString).
  rewrite IH. destruct (is_digit c); simpl.
  - destruct (all_digits s); [done|]. by destruct s.
  - by destruct s.
Qed.

Lemma re_match_newline (s : string) :
  has_newline s = false ->
  re_match (s +:+ String "010" EmptyString) = re_match s.
Proof.
  induction s as [|c s IH]; [done|]. intros Hnl.
  pose proof (match_digits_dollar_newline _ Hnl) as Hm.
  pose proof (match_digits_dollar_spec _ Hnl) as Hm'.
  simpl in Hnl. apply orb_false_elim in Hnl as [Hc Hs].
  change (String c s +:+ String "010" EmptyString)
    with (String c (s +:+ String "010" EmptyString)) in *.
  cbn [re_match]. rewrite Hm, Hm'.
  destruct (all_digits (String c s)); [done|]. by rewrite Hc, IH.
Qed.

Lemma chomp_spec (s : string) :
  inner_newline s = false ->
  has_newline (chomp s) = false
  /\ (s = chomp s \/ s = chomp s +:+ String "010" EmptyString).
Proof.
  induction s as [|c s IH]; [by split; [|left]|].
  destruct s as [|c' s].
  - intros _. simpl. destruct (is_newline c) eqn:Hc.
    + split; [done|]. right. unfold is_newline in Hc.
      by apply Ascii.eqb_eq in Hc as ->.
    + split; [by simpl; rewrite Hc | by left].
  - intros [Hc Hin]%orb_false_elim. destruct (IH Hin) as [Hnl Hs].
    change (chomp (String c (String c' s))) with (String c (chomp (String c' s))).
    split; [by cbn [has_newline]; rewrite Hc, Hnl|].
    destruct Hs as [Hs|Hs]; [left | right]; by rewrite Hs at 1.
Qed.

Lemma match_digits_dollar_inner (s ds : string) :
  match_digits_dollar s = Some ds -> inner_newline s = false.
Proof.
  revert ds. induction s as [|c s IH]; [done|]. intros ds. cbn [match_digits_dollar].
  destruct (is_digit c) eqn:Hd.
  - destruct (match_digits_dollar s) as [ds'|] eqn:Hs.
    + intros _. simpl. destruct s; [done|].
      by rewrite (digit_not_newline _ Hd), (IH _ eq_refl).
    + by destruct s.
  - by destruct s.
Qed.

Lemma re_match_inner (s : string) (groups : string * string) :
  re_match s = Some groups -> inner_newline s = false.
Proof.
  revert groups. induction s as [|c s IH]; [done|]. intros groups. cbn [re_match].
  destruct (match_digits_dollar (String c s)) as [ds|] eqn:Hm.
  { intros _. by apply (match_digits_dollar_inner _ _ Hm). }
  destruct (is_newline c) eqn:Hc; [done|].
  destruct (re_match s) as [[g1 g2]|]; [|done].
  intros _. simpl. destruct s; [done|]. by rewrite Hc, (IH _ eq_refl).
Qed.

(** X3.  The parser raises, by the assertion of line 38, exactly on the
    names with a line feed before their last character.  On every other
    name it returns what it returns on the name without the line feed
    that ends it: a final line feed is dropped from the base name. *)
Theorem strip_number_raises_iff (s : string) :
  (_strip_number_from_string s = Raise AssertionError <-> inner_newline s = true)
  /\ (inner_newline s = false ->
      has_newline (chomp s) = false
      /\ _strip_number_from_string s = _strip_number_from_string (chomp s)).
Proof.
  assert (Hsecond : inner_newline s = false ->
      has_newline (chomp s) = false
      /\ _strip_number_from_string s = _strip_number_from_string (chomp s)).
  { intros Hin. destruct (chomp_spec s Hin) as [Hnl [Hs|Hs]].
    - split; [done|]. by rewrite <- Hs.
    - split; [done|]. unfold _strip_number_from_string.
      rewrite Hs at 1. by rewrite re_match_newline. }
  split; [|exact Hsecond]. split.
  - unfold _strip_number_from_string.
    destruct (re_match s) as [[g1 g2]|] eqn:Hre; [done|]. intros _.
    destruct (inner_newline s) eqn:Hin; [done|].
    destruct (Hsecond eq_refl) as [Hnl Heq].
    destruct (re_match_spec _ Hnl) as (p & d & Hre' & _).
    unfold _strip_number_from_string in Heq. by rewrite Hre, Hre' in Heq.
  - intros Hin. unfold _strip_number_from_string.
    destruct (re_match s) as [groups|] eqn:Hre; [|done].
    by rewrite (re_match_inner _ _ Hre) in Hin.
Qed.

Lemma strip_number_raises_iff_witness :
  _strip_number_from_string a_newline_b = Raise AssertionError
  /\ _strip_number_from_string (String "y" (String "7" (String "010" EmptyString)))
     = _strip_number_from_string "y7".
Proof.
  split.
  - apply (proj1 (strip_number_raises_iff a_newline_b)). reflexivity.
  - apply (proj2 (strip_number_raises_iff
                    (String "y" (String "7" (String "010" EmptyString))))).
    reflexivity.
Defined.

(** ** More on the type resolver and the factories *)



Lemma is_signal_type_not_union (t : PyType) (sig : bool) :
  is_signal_type t = Ok sig -> exists obj, call_no_arguments t = Ok obj.
Proof. destruct t; [by eexists..|done]. Qed.



(** X6.  The optional layer is removed only outside the vector layer:
    an optional vector is resolved like the vector, while a vector of an
    optional type makes the resolver and the builder raise the
    [TypeError] of [issubclass]. *)
Theorem optional_inside_vector (is_pvi_table : bool) (number_suffix : option Z)
    (t : PyType) (sim : PyObject -> PyType -> Outcome PyObject) (name : string) :
  _parse_type is_pvi_table number_suffix (Some (TOptional (TAlias DeviceVector [t])))
    = _parse_type is_pvi_table number_suffix (Some (TAlias DeviceVector [t]))
  /\ _parse_type is_pvi_table number_suffix (Some (TAlias DeviceVector [TOptional t]))
     = Raise must_be_a_class
  /\ sim_sub_device sim name (TAlias DeviceVector [TOptional t]) = Raise must_be_a_class.
Proof. split_and!; reflexivity. Qed.

(** X7.  With the access tags [r] and [w] the factory takes the addresses
    in the order of the remote table, whatever their tags: the first
    address is the one read and the second the one written, also when the
    table lists [w] first. *)
Theorem make_signal_r_w_by_position (tag1 tag2 address1 address2 : string)
    (dtype : option PyType) :
  frozenset [tag1; tag2] = frozenset ["r"; "w"] ->
  make_signal [(tag1, address1); (tag2, address2)] dtype
  = Ok (mkObject (epics_signal_rw dtype (pva address1) (pva address2)) [] []).
Proof.
  intros Hkey. unfold make_signal. cbv zeta.
  change (dict_keys [(tag1, address1); (tag2, address2)]) with [tag1; tag2].
  rewrite Hkey. reflexivity.
Qed.

Lemma make_signal_r_w_by_position_witness :
  make_signal [("w", "PV:SET"); ("r", "PV:READBACK")] None
  = Ok (mkObject (epics_signal_rw None "pva://PV:SET" "pva://PV:READBACK") [] []).
Proof.
  apply (make_signal_r_w_by_position "w" "r" "PV:SET" "PV:READBACK" None).
  reflexivity.
Defined.

(** ** More on the dictionaries *)

Lemma dict_set_keys {K V : Type} `{EqDecision K} (k : K) (v : V) (d : list (K * V)) :
  dict_keys (dict_set k v d)
  = if bool_decide (k ∈ dict_keys d) then dict_keys d else dict_keys d ++ [k].
Proof.
  unfold dict_keys. induction d as [|[k' v'] d IH]; [done|].
  cbn [dict_set]. destruct (decide (k = k')) as [->|Hne]; rewrite !fmap_cons.
  - by rewrite bool_decide_eq_true_2 by left.
  - rewrite IH. cbn [fst]. destruct (decide (k ∈ d.*1)) as [Hin|Hnin].
    + by rewrite !bool_decide_eq_true_2 by (done || by right).
    + rewrite !bool_decide_eq_false_2; [done | | done].
      by intros [?|?]%elem_of_cons.
Qed.

Lemma dict_set_twice {K V : Type} `{EqDecision K} (k : K) (v v' : V) (d : list (K * V)) :
  dict_set k v' (dict_set k v d) = dict_set k v' d.
Proof.
  induction d as [|[k0 v0] d IH]; simpl.
  - by rewrite decide_True.
  - destruct (decide (k = k0)) as [->|Hne]; simpl.
    + by rewrite decide_True.
    + by rewrite decide_False, IH.
Qed.

Lemma dict_set_fresh {K V : Type} `{EqDecision K} (k : K) (v : V) (d : list (K * V)) :
  k ∉ dict_keys d -> dict_set k v d = d ++ [(k, v)].
Proof.
  unfold dict_keys. induction d as [|[k0 v0] d IH]; [done|].
  rewrite fmap_cons. intros [Hne Hnin]%not_elem_of_cons.
  cbn [dict_set]. by rewrite decide_False, IH.
Qed.

(** ** More on the test of a table address *)

Lemma substring_whole (s : string) : String.substring 0 (String.length s) s = s.
Proof. induction s as [|c s IH]; [done|]. simpl. by rewrite IH. Qed.

Lemma substring_split (k : nat) : forall (s : string) (m : nat),
  (k + m)%nat = String.length s ->
  s = String.substring 0 k s +:+ String.substring k m s.
Proof.
  induction k as [|k IH]; intros s m Hlen.
  - simpl in Hlen. subst m. rewrite substring_whole. by destruct s.
  - destruct s as [|c s]; [done|]. simpl in Hlen.
    change (String c s = String c (String.substring 0 k s +:+ String.substring k m s)).
    f_equal. apply IH. lia.
Qed.

Lemma substring_suffix (prefix suffix : string) :
  String.substring (String.length prefix) (String.length suffix) (prefix +:+ suffix)
  = suffix.
Proof. induction prefix as [|c p IH]; [apply substring_whole | exact IH]. Qed.

Lemma length_append (a b : string) :
  String.length (a +:+ b) = (String.length a + String.length b)%nat.
Proof. induction a as [|c a IH]; [done|]. simpl. by rewrite <- IH. Qed.

Lemma endswith_spec (s suffix : string) :
  endswith s suffix = true <-> exists prefix, s = prefix +:+ suffix.
Proof.
  unfold endswith. split.
  - intros [Hle Heq]%andb_prop. apply Nat.leb_le in Hle.
    apply String.eqb_eq in Heq.
    exists (String.substring 0 (String.length s - String.length suffix) s).
    pose proof (substring_split (String.length s - String.length suffix) s
                  (String.length suffix) ltac:(lia)) as Hs.
    by rewrite Heq in Hs.
  - intros [prefix ->]. rewrite length_append. apply andb_true_intro. split.
    + apply Nat.leb_le. lia.
    + replace (String.length prefix + String.length suffix - String.length suffix)%nat
        with (String.length prefix) by lia.
      rewrite substring_suffix. apply String.eqb_refl.
Qed.

Lemma not_a_pvi_table_spec (pv : string) :
  not_a_pvi_table (Some pv) = false <-> exists prefix, pv = prefix +:+ ":PVI".
Proof.
  unfold not_a_pvi_table. simpl. rewrite <- endswith_spec.
  destruct (endswith pv ":PVI") eqn:Hend.
  - destruct pv as [|c pv]; [done|]. simpl. done.
  - rewrite orb_true_r. done.
Qed.

(** ** More on discovery *)

Section WalkMore.
Context {Timeout : Type}.
Variable DEFAULT_TIMEOUT : Timeout.
Variable get_type_hints : PyType -> Exn + list (string * PyType).
Variable pvi_table_of : string -> Timeout -> Exn + PvaTable.

Local Abbreviation verify := (_verify_common_blocks get_type_hints).
Local Abbreviation walk :=
  (_get_pvi_entries DEFAULT_TIMEOUT get_type_hints pvi_table_of).
Local Abbreviation fill :=
  (fill_pvi_entries DEFAULT_TIMEOUT get_type_hints pvi_table_of).
Local Abbreviation with_default new :=
  (Forall (fun f : @Fetch Timeout => f.2 = DEFAULT_TIMEOUT) new).

Implicit Types (log : list (@Fetch Timeout)) (entry : PVIEntry)
  (subs : list (string * Slot PVIEntry)) (hints : list (string * PyType)).

Lemma walk_connections (fuel : nat) entry (timeout : Timeout) log
    (r : Outcome PVIEntry) log' :
  walk (S fuel) entry timeout log = (r, log') ->
  if not_a_pvi_table (pvi_pv entry) then
    r = Raise RuntimeError_not_pvi_table /\ log' = log
  else
    exists later,
      log' = log ++ (default "" (pvi_pv entry), timeout) :: later
      /\ with_default later.
Proof.
  cbn [_get_pvi_entries].
  destruct (not_a_pvi_table _); [by intros [= <- <-]|].
  unfold walk_bind at 1. unfold fetch_pvi at 1.
  destruct (pvi_table_of _ _) as [e|table]; cbn [returned].
  { intros [= <- <-]. exists []. split; [done | constructor]. }
  unfold walk_bind at 1. unfold lift at 1.
  destruct (hints_for _ _) as [hints|e|].
  2,3: intros [= <- <-]; exists []; split; [done | constructor].
  unfold walk_bind at 1.
  destruct (walk_loop _ _ _ _ _) as [o l1] eqn:Hloop.
  apply (walk_loop_log DEFAULT_TIMEOUT) in Hloop as (new & -> & Hnew).
  2:{ intros e l r' l' Hr.
      destruct (nested_fetches_use_default _ _ _ _ _ _ _ _ _ Hr)
        as [->|(later & -> & Hl)].
      - exists []. split; [by rewrite app_nil_r | constructor].
      - exists ((default "" (pvi_pv e), DEFAULT_TIMEOUT) :: later).
        split; [done|]. by constructor. }
  assert (Hend : (log ++ [(default "" (pvi_pv entry), timeout)]) ++ new
                 = log ++ (default "" (pvi_pv entry), timeout) :: new).
  { by rewrite <- app_assoc. }
  destruct o as [subs| |]; [|intros [= <- <-]; eauto..].
  destruct (common_device_type _); unfold walk_bind, lift, walk_ret;
    [destruct (verify _ _)|]; intros [= <- <-]; eauto.
Qed.

(** X8.  A call of the walk on an entry whose address is not a table
    address raises without any connection.  Otherwise its first connection
    is to the address of the entry with the timeout it was given, and
    every later connection of the call, down to the deepest table, is made
    with [DEFAULT_TIMEOUT]. *)
Theorem connections_of_a_walk (fuel : nat) entry (timeout : Timeout) log
    (r : Outcome PVIEntry) log' :
  walk (S fuel) entry timeout log = (r, log') ->
  if not_a_pvi_table (pvi_pv entry) then
    r = Raise RuntimeError_not_pvi_table /\ log' = log
  else
    exists later,
      log' = log ++ (default "" (pvi_pv entry), timeout) :: later
      /\ Forall (fun f => f.2 = DEFAULT_TIMEOUT) later.
Proof. apply walk_connections. Qed.

(** X9.  The entry point in live mode makes a connection exactly when the
    root address is some text followed by [:PVI].  For any other address,
    the empty one included, it raises the [RuntimeError] of line 203 with
    no connection made and the device as it was; for such an address the
    first connection is to that address with the timeout of the caller. *)
Theorem root_address_must_end_with_PVI (fuel : nat) (device : PyObject)
    (root_pv : string) (timeout : Timeout) :
  ((exists prefix, root_pv = prefix +:+ ":PVI") ->
     exists r device' later,
       fill (S fuel) device root_pv timeout false
       = (r, device', (root_pv, timeout) :: later))
  /\ (~ (exists prefix, root_pv = prefix +:+ ":PVI") ->
     fill (S fuel) device root_pv timeout false
     = (Raise RuntimeError_not_pvi_table, device, [])).
Proof.
  unfold fill_pvi_entries.
  destruct (walk (S fuel) (root_entry_of device root_pv) timeout [])
    as [r log] eqn:Hwalk.
  apply walk_connections in Hwalk. cbn [root_entry_of pvi_pv] in Hwalk.
  split; intros Hform.
  - apply not_a_pvi_table_spec in Hform. rewrite Hform in Hwalk.
    destruct Hwalk as (later & -> & _). simpl.
    destruct r; by do 3 eexists.
  - destruct (not_a_pvi_table (Some root_pv)) eqn:Hnot.
    + by destruct Hwalk as [-> ->].
    + by apply not_a_pvi_table_spec in Hnot.
Qed.

End WalkMore.

(** ** More on the storing of entries *)


Lemma store_twice_same_number (subs : list (string * Slot PVIEntry))
    (name1 name2 base : string) (num1 num2 : option Z) (e1 e2 : PVIEntry)
    (subs1 : list (string * Slot PVIEntry)) :
  store_sub_entry subs true name1 base num1 e1 = Ok subs1 ->
  default 1 num1 = default 1 num2 ->
  store_sub_entry subs1 true name2 base num2 e2
  = store_sub_entry subs true name2 base num2 e2.
Proof.
  unfold store_sub_entry. intros Hstore Hnum. rewrite <- Hnum.
  destruct (dict_get base subs) as [[?|es]|] eqn:Hold; [done| |];
    injection Hstore as <-; rewrite dict_get_set_eq, dict_set_twice.
  - by rewrite dict_set_twice.
  - cbn [dict_set]. by rewrite decide_True.
Qed.

(** X10.  Two children that go to a vector under the same base name with
    the same number, a missing number counting for 1, leave in the
    dictionary what the second alone would have left: the second replaces
    the first, at the place of the first. *)
Theorem store_same_number (subs : list (string * Slot PVIEntry))
    (name1 name2 base : string) (num1 num2 : option Z) (e1 e2 : PVIEntry)
    (subs1 : list (string * Slot PVIEntry)) :
  store_sub_entry subs true name1 base num1 e1 = Ok subs1 ->
  default 1 num1 = default 1 num2 ->
  store_sub_entry subs1 true name2 base num2 e2
  = store_sub_entry subs true name2 base num2 e2.
Proof. apply store_twice_same_number. Qed.

Section StoreMore.
Context {Timeout : Type}.
Variable DEFAULT_TIMEOUT : Timeout.
Variable get_type_hints : PyType -> Exn + list (string * PyType).
Variable pvi_table_of : string -> Timeout -> Exn + PvaTable.

Local Abbreviation verify := (_verify_common_blocks get_type_hints).
Local Abbreviation walk :=
  (_get_pvi_entries DEFAULT_TIMEOUT get_type_hints pvi_table_of).
Local Abbreviation fill :=
  (fill_pvi_entries DEFAULT_TIMEOUT get_type_hints pvi_table_of).

Implicit Types (log : list (@Fetch Timeout)) (entry : PVIEntry)
  (subs : list (string * Slot PVIEntry)) (hints : list (string * PyType)).

Lemma parse_type_callable (b : bool) (n : option Z) (declared : option PyType)
    (vec sig : bool) (dtype : option PyType) (t : PyType) :
  _parse_type b n declared = Ok (vec, sig, dtype, t) ->
  exists obj, call_no_arguments t = Ok obj.
Proof.
  destruct declared as [d|].
  - intros [_ Hs]%parse_type_declared_inv. by apply (is_signal_type_not_union _ _ Hs).
  - simpl. destruct b; intros [= _ _ _ <-]; by eexists.
Qed.

(** X11.  A child that goes to a vector while its base name is the key of
    an entry stored alone makes line 241 raise [TypeError]: the call fails
    there, before the table of the child is read, so with no connection
    for it. *)
Theorem numbered_child_on_taken_name (recurse : PVIEntry -> Walk PVIEntry)
    hints subs (sub_name : string) (pva_entries : PvaEntries) log
    (base : string) (num : option Z) (sig : bool) (dtype : option PyType)
    (t : PyType) (old : PVIEntry) :
  _strip_number_from_string sub_name = Ok (base, num) ->
  _parse_type (is_pvi_table_child pva_entries.*2) num (dict_get base hints)
    = Ok (true, sig, dtype, t) ->
  (sig = true -> exists signal, make_signal pva_entries dtype = Ok signal) ->
  dict_get base subs = Some (One old) ->
  walk_child recurse hints subs sub_name pva_entries log
  = (Raise no_item_assignment, log).
Proof.
  intros Hsplit Hparse Hsignal Hold. unfold walk_child, walk_bind, lift.
  rewrite Hsplit, Hparse.
  destruct (parse_type_callable _ _ _ _ _ _ _ Hparse) as [obj Hobj].
  destruct sig.
  - destruct (Hsignal eq_refl) as [signal ->]. unfold store_sub_entry.
    by rewrite Hold.
  - rewrite Hobj. unfold store_sub_entry. by rewrite Hold.
Qed.




(** X13.  A child without declared type whose one address is a table
    address and whose name ends with digits goes, once its table is
    walked, into a vector under its base name at the number of its
    name, when no child took that base name before; its device is a plain
    [Device]. *)
Theorem undeclared_numbered_table (recurse : PVIEntry -> Walk PVIEntry)
    hints subs (sub_name : string) (pva_entries : PvaEntries) log
    (base : string) (number : Z) (filled : PVIEntry) log' :
  is_pvi_table_child pva_entries.*2 = true ->
  _strip_number_from_string sub_name = Ok (base, Some number) ->
  dict_get base hints = None ->
  dict_get base subs = None ->
  recurse (mkPVIEntry [] (head pva_entries.*2)
             (mkObject (no_arguments (TClass Device)) [] [])
             (Some (TClass Device))) log
    = (Ok filled, log') ->
  walk_child recurse hints subs sub_name pva_entries log
  = (Ok (subs ++ [(base, ByNumber [(number, filled)])]), log').
Proof.
  intros Htable Hsplit Hhint Hfree Hrec. unfold walk_child, walk_bind, lift.
  rewrite Hsplit, Htable, Hhint. cbn [_parse_type call_no_arguments].
  rewrite bool_decide_eq_true_2 by done.
  unfold store_sub_entry at 1. rewrite Hfree. cbn [default from_option id].
  unfold set_pvi_pv. cbn [sub_entries device common_device_type].
  rewrite Hrec. unfold store_sub_entry. rewrite dict_get_set_eq.
  cbn [dict_set default from_option id]. rewrite decide_True by done.
  rewrite dict_set_twice.
  rewrite dict_set_fresh; [done|]. by apply dict_get_None.
Qed.

End StoreMore.

(** ** More on verification *)

Section VerifyMore.
Variable get_type_hints : PyType -> Exn + list (string * PyType).

Local Abbreviation verify := (_verify_common_blocks get_type_hints).
Local Abbreviation verify_stored subs :=
  (fun name => verify_slot get_type_hints <$> dict_get name subs).

Lemma verify_values_Ok (es : list (Z * PVIEntry)) (t : PyType) :
  verify_values (map (fun '(_, e) => verify e) es) t = Ok tt
  <-> Forall (fun kv => verify kv.2 t = Ok tt) es.
Proof.
  induction es as [|[k e] es IH]; cbn [map verify_values].
  - split; [by constructor | done].
  - rewrite Forall_cons, <- IH. cbn [snd].
    destruct (verify e t) as [[]| |]; cbn [mbind outcome_bind].
    + split; [by intros ? | by intros [_ ?]].
    + split; [done | by intros [? _]].
    + split; [done | by intros [? _]].
Qed.

Lemma verify_slot_Ok (slot : Slot PVIEntry) (t : PyType) :
  verify_slot get_type_hints slot t = Ok tt
  <-> slot_all (fun e => verify e t = Ok tt) slot.
Proof. destruct slot as [e|es]; [done|]. apply verify_values_Ok. Qed.

Lemma verify_loop_Ok (subs : list (string * Slot PVIEntry))
    (hints : list (string * PyType)) :
  verify_loop (dict_keys subs) (verify_stored subs) hints = Ok tt
  <-> forall name t, (name, t) ∈ hints -> skipped name = false ->
        exists slot, dict_get name subs = Some slot
                     /\ slot_all (fun e => verify e t = Ok tt) slot.
Proof.
  induction hints as [|[n t0] hints IH]; cbn [verify_loop].
  - split; [by intros _ ? ? ?%elem_of_nil | done].
  - unfold verify_sub_device. destruct (skipped n) eqn:Hskip.
    + cbn [mbind outcome_bind]. rewrite IH. split.
      * intros H name t [[= -> ->]|Hin]%elem_of_cons Hs; [congruence | by apply H].
      * intros H name t Hin. apply H. by right.
    + rewrite get_origin_never_Optional, andb_true_r.
      destruct (decide (n ∈ dict_keys subs)) as [Hin|Hnin].
      * rewrite bool_decide_eq_false_2 by (by intros ?).
        destruct (dict_get n subs) as [slot|] eqn:Hget;
          [|by apply dict_get_None in Hget].
        cbn [fmap option_fmap option_map].
        destruct (verify_slot get_type_hints slot t0) as [[]| |] eqn:Hslot;
          cbn [mbind outcome_bind].
        -- rewrite IH. split.
           ++ intros H name t [[= -> ->]|Hin']%elem_of_cons Hs; [|by apply H].
              exists slot. split; [done|]. by apply verify_slot_Ok.
           ++ intros H name t Hin'. apply H. by right.
        -- split; [done|]. intros H.
           destruct (H n t0 ltac:(left) Hskip) as (slot' & Hsame & Hall).
           apply verify_slot_Ok in Hall. congruence.
        -- split; [done|]. intros H.
           destruct (H n t0 ltac:(left) Hskip) as (slot' & Hsame & Hall).
           apply verify_slot_Ok in Hall. congruence.
      * rewrite bool_decide_eq_true_2 by done. split; [done|]. intros H.
        destruct (H n t0 ltac:(left) Hskip) as (slot & Hget%dict_get_Some_keys & _).
        done.
Qed.

Lemma verify_Ok (entry : PVIEntry) (common_device : PyType) :
  verify entry common_device = Ok tt
  <-> sub_entries entry = []
      \/ exists hints,
           get_type_hints common_device = inr hints
           /\ forall name t, (name, t) ∈ hints -> skipped name = false ->
                exists slot,
                  dict_get name (sub_entries entry) = Some slot
                  /\ slot_all (fun e => verify e t = Ok tt) slot.
Proof.
  rewrite verify_common_blocks_eq.
  destruct (sub_entries entry) as [|ns subs] eqn:Hsubs; [by split; [left|]|].
  destruct (get_type_hints common_device) as [e|hints]; cbn [returned mbind outcome_bind].
  - split; [done|]. by intros [|(? & ? & _)].
  - rewrite verify_loop_Ok. split.
    + intros H. right. by exists hints.
    + by intros [|(? & [= <-] & H)].
Qed.

(** X14.  What a verification that returns has checked.  An entry
    verifies against a type exactly when it has no children, or the
    annotations of the type can be read and every annotation that is not
    [_name] or [parent], optional or not, names a child of the entry, each
    entry under that name verifying in turn against the annotation as it
    is written, with its optional and vector layers. *)
Theorem verify_returns_iff (entry : PVIEntry) (common_device : PyType) :
  verify entry common_device = Ok tt
  <-> sub_entries entry = []
      \/ exists hints,
           get_type_hints common_device = inr hints
           /\ forall name t, (name, t) ∈ hints -> skipped name = false ->
                exists slot,
                  dict_get name (sub_entries entry) = Some slot
                  /\ slot_all (fun e => verify e t = Ok tt) slot.
Proof. apply verify_Ok. Qed.

End VerifyMore.

(** ** More on attachment *)

Section AttachedMore.
Implicit Types (subs : list (string * Slot PVIEntry)) (o : PyObject).

Local Abbreviation attach_all subs o :=
  (fold_left (fun entry_device '(sub_name, slot) =>
                setattr entry_device sub_name (attached_slot slot)) subs o).

Local Abbreviation put_all es o :=
  (fold_left (fun sub_device '(key, device_vector_sub_entry) =>
                setitem sub_device key (attached_entry device_vector_sub_entry))
             es o).



Lemma put_all_fresh (es : list (Z * PVIEntry)) : forall o,
  NoDup (dict_keys (items o) ++ dict_keys es) ->
  items (put_all es o) = items o ++ ((fun kv => (kv.1, attached_entry kv.2)) <$> es)
  /\ attrs (put_all es o) = attrs o.
Proof.
  induction es as [|[k e] es IH]; intros o Hnd; cbn [fold_left].
  - by rewrite fmap_nil, app_nil_r.
  - unfold dict_keys in Hnd. rewrite fmap_cons in Hnd. cbn [fst] in Hnd.
    assert (Hk : k ∉ dict_keys (items o)).
    { apply NoDup_app in Hnd as (_ & Hdisj & _). intros Hin.
      apply (Hdisj _ Hin). left. }
    destruct (IH (setitem o k (attached_entry e))) as [Hitems Hattrs].
    { cbn [setitem items]. rewrite dict_set_keys.
      rewrite bool_decide_eq_false_2 by done.
      rewrite <- app_assoc. exact Hnd. }
    rewrite Hitems, Hattrs. cbn [setitem items attrs].
    rewrite dict_set_fresh by done. by rewrite <- app_assoc, fmap_cons.
Qed.


(** X16.  The vector attached for numbered entries, each number being
    there once: a new [DeviceVector] without attributes whose items are the
    numbers of the entries, in the order in which they were stored, each
    with the object attached for its entry. *)
Theorem attached_vector_items (es : list (Z * PVIEntry)) :
  NoDup (dict_keys es) ->
  made_by (attached_slot (ByNumber es)) = no_arguments (TClass DeviceVector)
  /\ attrs (attached_slot (ByNumber es)) = []
  /\ items (attached_slot (ByNumber es))
     = (fun kv => (kv.1, attached_entry kv.2)) <$> es.
Proof.
  intros Hnd. unfold attached_slot.
  destruct (put_all_fresh es (new_DeviceVector [])) as [Hitems Hattrs]; [done|].
  split_and!; [by rewrite put_all_made_by | done | done].
Qed.

End AttachedMore.

(** ** More on the result of discovery *)

Lemma dict_set_NoDup {K V : Type} `{EqDecision K} (k : K) (v : V) (d : list (K * V)) :
  NoDup (dict_keys d) -> NoDup (dict_keys (dict_set k v d)).
Proof.
  intros Hnd. rewrite dict_set_keys. case_bool_decide as Hin; [done|].
  apply NoDup_app. split_and!; [done | | apply NoDup_singleton].
  by intros x Hx ->%list_elem_of_singleton.
Qed.

Lemma addressed_iff (subs : list (string * Slot PVIEntry)) pv d t :
  addressed (mkPVIEntry subs pv d t)
  <-> (subs <> [] -> str_truthy pv = true) /\ subs_addressed subs.
Proof.
  split.
  - inversion 1 as [? ? ? ? Hpv Hone Hmany]; subst. split; [done|].
    intros name [e|es] Hin; simpl; [by apply (Hone name)|].
    apply Forall_forall. intros [k e] Hin'. by apply (Hmany name es k).
  - intros [Hpv Hsubs]. constructor; [done | |].
    + intros name e Hin. apply (Hsubs _ _ Hin).
    + intros name es k e Hin Hin'. specialize (Hsubs _ _ Hin). simpl in Hsubs.
      rewrite Forall_forall in Hsubs. apply (Hsubs _ Hin').
Qed.

Lemma store_addressed (subs : list (string * Slot PVIEntry)) (vec : bool)
    (sub_name base : string) (num : option Z) (e : PVIEntry)
    (subs' : list (string * Slot PVIEntry)) :
  subs_addressed subs -> addressed e ->
  store_sub_entry subs vec sub_name base num e = Ok subs' ->
  subs_addressed subs'.
Proof.
  intros Hsubs He. unfold store_sub_entry. destruct vec.
  - destruct (dict_get base subs) as [[e1|es]|] eqn:Hold; [done| |];
      intros [= <-] name slot Hin;
      apply dict_set_elem_of in Hin as [[= -> ->]|Hin];
      try by apply (Hsubs name slot).
    + apply dict_get_elem_of in Hold. specialize (Hsubs _ _ Hold).
      simpl in *. rewrite Forall_forall in Hsubs. apply Forall_forall.
      intros [k' e'] [[= -> ->]|Hin]%dict_set_elem_of; [done | by apply Hsubs].
    + simpl. by repeat constructor.
  - intros [= <-] name slot Hin.
    apply dict_set_elem_of in Hin as [[= -> ->]|Hin];
      [done | by apply (Hsubs name slot)].
Qed.

Lemma store_NoDup (subs : list (string * Slot PVIEntry)) (vec : bool)
    (sub_name base : string) (num : option Z) (e : PVIEntry)
    (subs' : list (string * Slot PVIEntry)) :
  NoDup (dict_keys subs) ->
  store_sub_entry subs vec sub_name base num e = Ok subs' ->
  NoDup (dict_keys subs').
Proof.
  intros Hnd. unfold store_sub_entry. destruct vec.
  - destruct (dict_get base subs) as [[e1|es]|]; [done| |];
      intros [= <-]; by apply dict_set_NoDup.
  - intros [= <-]. by apply dict_set_NoDup.
Qed.

Lemma not_a_pvi_table_truthy (pv : option string) :
  not_a_pvi_table pv = false -> str_truthy pv = true.
Proof. unfold not_a_pvi_table. by destruct (str_truthy pv). Qed.

Section FillMore.
Context {Timeout : Type}.
Variable DEFAULT_TIMEOUT : Timeout.
Variable get_type_hints : PyType -> Exn + list (string * PyType).
Variable pvi_table_of : string -> Timeout -> Exn + PvaTable.

Local Abbreviation verify := (_verify_common_blocks get_type_hints).
Local Abbreviation walk :=
  (_get_pvi_entries DEFAULT_TIMEOUT get_type_hints pvi_table_of).
Local Abbreviation fill :=
  (fill_pvi_entries DEFAULT_TIMEOUT get_type_hints pvi_table_of).

Implicit Types (log : list (@Fetch Timeout)) (entry : PVIEntry)
  (subs : list (string * Slot PVIEntry)) (hints : list (string * PyType)).

Lemma walk_child_addressed (recurse : PVIEntry -> Walk PVIEntry) hints subs
    (sub_name : string) (pva_entries : PvaEntries) log subs' log' :
  (forall e l e' l', sub_entries e = [] -> recurse e l = (Ok e', l') -> addressed e') ->
  subs_addressed subs /\ NoDup (dict_keys subs) ->
  walk_child recurse hints subs sub_name pva_entries log = (Ok subs', log') ->
  subs_addressed subs' /\ NoDup (dict_keys subs').
Proof.
  intros Hrec [Hsubs Hnd]. unfold walk_child, walk_bind, lift.
  destruct (_strip_number_from_string sub_name) as [[base num]| |]; [|done..].
  destruct (_parse_type _ _ _) as [[[[vec sig] dtype] t]| |]; [|done..].
  destruct (if sig then _ else _) as [dev| |]; [|done..].
  destruct (store_sub_entry subs vec sub_name base num _) as [subs1| |] eqn:Hstore1;
    [|done..].
  assert (subs_addressed subs1 /\ NoDup (dict_keys subs1)) as [Hsubs1 Hnd1].
  { split; [|by apply (store_NoDup _ _ _ _ _ _ _ Hnd Hstore1)].
    apply (store_addressed _ _ _ _ _ _ _ Hsubs) in Hstore1; [done|].
    apply addressed_iff. split; [done | by intros ? ? ?%elem_of_nil]. }
  destruct (is_pvi_table_child _).
  - destruct (recurse _ log) as [[e| |] log1] eqn:Hcall; [|done..].
    destruct (store_sub_entry subs1 vec sub_name base num e) as [subs2| |] eqn:Hstore2;
      [|done..].
    intros [= <- <-]. split; [|by apply (store_NoDup _ _ _ _ _ _ _ Hnd1 Hstore2)].
    apply (store_addressed _ _ _ _ _ _ _ Hsubs1) in Hstore2; [done|].
    by apply (fun H => Hrec _ _ _ _ H Hcall).
  - by intros [= <- <-].
Qed.

Lemma walk_loop_addressed (recurse : PVIEntry -> Walk PVIEntry) hints
    (table : PvaTable) : forall subs log subs' log',
  (forall e l e' l', sub_entries e = [] -> recurse e l = (Ok e', l') -> addressed e') ->
  subs_addressed subs /\ NoDup (dict_keys subs) ->
  walk_loop recurse hints table subs log = (Ok subs', log') ->
  subs_addressed subs' /\ NoDup (dict_keys subs').
Proof.
  induction table as [|[n e] table IH]; intros subs log subs' log' Hrec Hsubs; simpl.
  - by intros [= <- <-].
  - unfold walk_bind.
    destruct (walk_child recurse hints subs n e log) as [[subs1| |] log1] eqn:Hchild;
      [|done..].
    apply IH; [done|]. by apply (walk_child_addressed _ _ _ _ _ _ _ _ Hrec Hsubs Hchild).
Qed.

Lemma walk_level (fuel : nat) entry (timeout : Timeout) log entry' log' :
  walk (S fuel) entry timeout log = (Ok entry', log') ->
  not_a_pvi_table (pvi_pv entry) = false
  /\ exists table hints subs,
       pvi_table_of (default "" (pvi_pv entry)) timeout = inr table
       /\ hints_for get_type_hints (common_device_type entry) = Ok hints
       /\ walk_loop (fun sub_entry => walk fuel sub_entry DEFAULT_TIMEOUT)
            hints table (sub_entries entry)
            (log ++ [(default "" (pvi_pv entry), timeout)]) = (Ok subs, log')
       /\ entry' = set_sub_entries entry subs
       /\ forall t, common_device_type entry = Some t -> verify entry' t = Ok tt.
Proof.
  intros Hwalk.
  destruct (not_a_pvi_table (pvi_pv entry)) eqn:Hpv.
  { cbn [_get_pvi_entries] in Hwalk. by rewrite Hpv in Hwalk. }
  split; [done|].
  destruct (pvi_table_of (default "" (pvi_pv entry)) timeout) as [e|table] eqn:Hfetch.
  { cbn [_get_pvi_entries] in Hwalk. rewrite Hpv in Hwalk.
    unfold walk_bind, fetch_pvi in Hwalk. by rewrite Hfetch in Hwalk. }
  destruct (hints_for get_type_hints (common_device_type entry))
    as [hints| |] eqn:Hhints.
  2,3: cbn [_get_pvi_entries] in Hwalk; rewrite Hpv in Hwalk;
    unfold walk_bind, fetch_pvi, lift in Hwalk;
    by rewrite Hfetch, Hhints in Hwalk.
  rewrite (get_pvi_entries_level _ _ _ fuel entry timeout log table hints Hpv Hfetch Hhints)
    in Hwalk.
  destruct (walk_loop _ _ _ _ _) as [[subs| |] log1] eqn:Hloop; [|done..].
  exists table, hints, subs. split; [done|]. split; [done|].
  destruct (common_device_type entry) as [t|] eqn:Ht.
  - destruct (verify _ t) as [[]| |] eqn:Hv; [|done..].
    injection Hwalk as <- <-. split_and!; [done..|]. by intros t' [= <-].
  - injection Hwalk as <- <-. by split_and!.
Qed.

Lemma walk_addressed : forall (fuel : nat) entry (timeout : Timeout) log entry' log',
  walk fuel entry timeout log = (Ok entry', log') ->
  subs_addressed (sub_entries entry) /\ NoDup (dict_keys (sub_entries entry)) ->
  addressed entry' /\ NoDup (dict_keys (sub_entries entry')).
Proof.
  induction fuel as [|fuel IH]; intros entry timeout log entry' log'; [done|].
  intros (Hpv & table & hints & subs & _ & _ & Hloop & -> & _)%walk_level Hsubs.
  apply walk_loop_addressed in Hloop as [Ha Hnd]; [| |done].
  - destruct entry as [subs0 pv d t]. split; [|done].
    apply addressed_iff. split; [|done]. intros _.
    by apply not_a_pvi_table_truthy.
  - intros e l e' l' He Hcall. apply (IH _ _ _ _ _ Hcall).
    rewrite He. split; [by intros ? ? ?%elem_of_nil | constructor].
Qed.

(** X17.  The entry that a walk returns, started on an entry without
    children, has a table address wherever it has children, at every
    depth, and its dictionary of children has each key once.  So the
    tests of lines 261 and 267 leave out no entry that has children. *)
Theorem walked_entry_is_addressed (fuel : nat) entry (timeout : Timeout) log
    entry' log' :
  sub_entries entry = [] ->
  walk fuel entry timeout log = (Ok entry', log') ->
  addressed entry' /\ NoDup (dict_keys (sub_entries entry')).
Proof.
  intros Hnone Hwalk. apply (walk_addressed _ _ _ _ _ _ Hwalk).
  rewrite Hnone. split; [by intros ? ? ?%elem_of_nil | constructor].
Qed.



End FillMore.

(** ** More on the simulation *)

Section SimMore.
Variable get_type_hints : PyType -> Exn + list (string * PyType).

Local Abbreviation sim := (_sim_common_blocks get_type_hints).

Lemma sim_loop_kept (rec : PyObject -> PyType -> Outcome PyObject) hints
    (name : string) : forall device r device',
  sim_loop rec hints device = (r, device') ->
  name ∉ dict_keys hints \/ skipped name = true ->
  dict_get name (attrs device') = dict_get name (attrs device).
Proof.
  induction hints as [|[n t] hints IH]; intros device r device'; cbn [sim_loop].
  - by intros [= _ <-].
  - intros Hloop Hname.
    assert (Hrest : name ∉ dict_keys hints \/ skipped name = true).
    { destruct Hname as [Hname|]; [left|by right].
      by apply not_elem_of_cons in Hname as [_ ?]. }
    destruct (skipped n) eqn:Hskip; [by apply (IH _ _ _ Hloop)|].
    destruct (sim_sub_device rec n t) as [sub_device| |];
      [|by injection Hloop as _ <-..].
    rewrite (IH _ _ _ Hloop Hrest). apply setattr_get_ne.
    intros ->. destruct Hname as [Hname|Hname]; [|congruence].
    apply Hname. left.
Qed.

Lemma sim_loop_names (rec : PyObject -> PyType -> Outcome PyObject) hints
    (name : string) : forall device device',
  sim_loop rec hints device = (Ok tt, device') ->
  is_Some (dict_get name (attrs device'))
  <-> is_Some (dict_get name (attrs device))
      \/ (name ∈ dict_keys hints /\ skipped name = false).
Proof.
  induction hints as [|[n t] hints IH]; intros device device'; cbn [sim_loop].
  - intros [= <-]. split; [by left|]. by intros [?|[?%elem_of_nil _]].
  - unfold dict_keys. rewrite fmap_cons. cbn [fst]. fold (dict_keys hints).
    destruct (skipped n) eqn:Hskip.
    + intros Hloop. rewrite (IH _ _ Hloop). split.
      * intros [?|[? ?]]; [by left|]. right. split; [by right | done].
      * intros [?|[[->|?]%elem_of_cons ?]]; [by left | congruence | by right].
    + destruct (sim_sub_device rec n t) as [sub_device| |]; [|done..].
      intros Hloop. rewrite (IH _ _ Hloop).
      destruct (decide (name = n)) as [->|Hne].
      * rewrite setattr_get. split; [|by left].
        intros _. right. split; [left | done].
      * rewrite setattr_get_ne by done. split.
        -- intros [?|[? ?]]; [by left|]. right. split; [by right | done].
        -- intros [?|[[->|?]%elem_of_cons ?]]; [by left | done | by right].
Qed.

Lemma sim_loop_app (rec : PyObject -> PyType -> Outcome PyObject)
    (pre post : list (string * PyType)) : forall device,
  sim_loop rec (pre ++ post) device
  = match sim_loop rec pre device with
    | (Ok _, device1) => sim_loop rec post device1
    | other => other
    end.
Proof.
  induction pre as [|[n t] pre IH]; intros device; cbn [app sim_loop]; [done|].
  destruct (skipped n); [apply IH|].
  by destruct (sim_sub_device rec n t).
Qed.

(** X19.  The names that the builder touches.  However a call ends, the
    device keeps its constructor and its items, and every attribute whose
    name is not declared by the type, or is [_name] or [parent], is as it
    was.  After a call that returns, the attributes of the device are
    those it had and those of the declared names that are not [_name] or
    [parent]. *)
Theorem sim_sets_declared_names (fuel : nat) (device : PyObject)
    (stripped_type : option PyType) (hints : list (string * PyType))
    (r : Outcome unit) (device' : PyObject) :
  sim fuel device stripped_type = (r, device') ->
  get_type_hints (default (type_of_object device) stripped_type) = inr hints ->
  made_by device' = made_by device
  /\ items device' = items device
  /\ (forall name, name ∉ dict_keys hints \/ skipped name = true ->
        dict_get name (attrs device') = dict_get name (attrs device))
  /\ (r = Ok tt -> forall name,
        is_Some (dict_get name (attrs device'))
        <-> is_Some (dict_get name (attrs device))
            \/ (name ∈ dict_keys hints /\ skipped name = false)).
Proof.
  intros Hsim Hhints.
  destruct (sim_keeps _ _ _ _ _ _ Hsim) as [Hmade Hitems].
  split; [done|]. split; [done|].
  destruct fuel as [|fuel]; [by injection Hsim as <- <-|].
  cbn [_sim_common_blocks] in Hsim. rewrite Hhints in Hsim. split.
  - intros name. by apply (sim_loop_kept _ _ _ _ _ _ Hsim).
  - intros -> name. by apply (sim_loop_names _ _ _ _ _ Hsim).
Qed.

(** X20.  The builder does not undo what it did.  When the annotations
    before [name] are built and the one of [name] raises, the call raises
    that exception and leaves the device as the loop over the annotations
    before [name] left it: with an attribute for each of them that is not
    [_name] or [parent]. *)
Theorem sim_failure_keeps_earlier (fuel : nat) (device : PyObject)
    (stripped_type : option PyType) (pre post : list (string * PyType))
    (name : string) (t : PyType) (e : Exn) (device1 : PyObject) :
  get_type_hints (default (type_of_object device) stripped_type)
    = inr (pre ++ (name, t) :: post) ->
  skipped name = false ->
  sim_loop (sim_below get_type_hints fuel) pre device = (Ok tt, device1) ->
  sim_sub_device (sim_below get_type_hints fuel) name t = Raise e ->
  sim (S fuel) device stripped_type = (Raise e, device1)
  /\ forall earlier, earlier ∈ dict_keys pre -> skipped earlier = false ->
       is_Some (dict_get earlier (attrs device1)).
Proof.
  intros Hhints Hskip Hpre Hname. split.
  - cbn [_sim_common_blocks]. rewrite Hhints. unfold sim_below in Hpre, Hname.
    rewrite sim_loop_app, Hpre. cbn [sim_loop]. by rewrite Hskip, Hname.
  - intros earlier Hin Hs. apply (sim_loop_names _ _ _ _ _ Hpre). by right.
Qed.

End SimMore.

(** ** The further statements on the example inputs *)

Lemma connections_of_a_walk_witness :
  exists later,
    [("DEV:PVI", 30); ("DEV:BLOCK:PVI", 10)] = [] ++ ("DEV:PVI", 30) :: later
    /\ Forall (fun f : string * Z => f.2 = 10) later.
Proof.
  exact (connections_of_a_walk 10 example_hints (tables_in nested_tables) 19
           (root_entry_of (new_object Device) "DEV:PVI") 30 []
           (Raise (TransportError "TimeoutError"))
           [("DEV:PVI", 30); ("DEV:BLOCK:PVI", 10)] eq_refl).
Defined.

Lemma root_address_must_end_with_PVI_witness :
  (exists r device' later,
     discover nested_tables (new_object Device) "DEV:PVI" 30
     = (r, device', ("DEV:PVI", 30) :: later))
  /\ discover nested_tables (new_object Device) "DEV:BLOCK" 30
     = (Raise RuntimeError_not_pvi_table, new_object Device, []).
Proof.
  split.
  - apply (root_address_must_end_with_PVI 10 example_hints
             (tables_in nested_tables) 19 (new_object Device) "DEV:PVI" 30).
    by exists "DEV".
  - apply (root_address_must_end_with_PVI 10 example_hints
             (tables_in nested_tables) 19 (new_object Device) "DEV:BLOCK" 30).
    intros Hform. apply not_a_pvi_table_spec in Hform. discriminate Hform.
Defined.

Lemma store_same_number_witness :
  store_sub_entry [("ch", ByNumber [(1, signal_entry "DEV:CH1")])] true
    "ch" "ch" None (signal_entry "DEV:CH")
  = store_sub_entry [] true "ch" "ch" None (signal_entry "DEV:CH").
Proof.
  apply (store_same_number [] "ch1" "ch" "ch" (Some 1) None
           (signal_entry "DEV:CH1") (signal_entry "DEV:CH"));
    reflexivity.
Defined.

Lemma numbered_child_on_taken_name_witness :
  walk_child (nested_walk block2_tables) Device_annotations
    [("block", One (signal_entry "DEV:BLOCK"))]
    "block2" [("d", "DEV:C:PVI")] []
  = (Raise no_item_assignment, []).
Proof.
  apply (numbered_child_on_taken_name (nested_walk block2_tables)
           Device_annotations [("block", One (signal_entry "DEV:BLOCK"))]
           "block2" [("d", "DEV:C:PVI")] [] "block" (Some 2) false None
           (TClass Device) (signal_entry "DEV:BLOCK"));
    [reflexivity | reflexivity | discriminate | reflexivity].
Defined.


Lemma undeclared_numbered_table_witness :
  walk_child (nested_walk block2_tables) Device_annotations [] "block2"
    [("d", "DEV:C:PVI")] []
  = (Ok [("block", ByNumber [(2, table_entry "DEV:C:PVI")])], [("DEV:C:PVI", 10)]).
Proof.
  apply (undeclared_numbered_table (nested_walk block2_tables) Device_annotations
           [] "block2" [("d", "DEV:C:PVI")] [] "block" 2
           (table_entry "DEV:C:PVI") [("DEV:C:PVI", 10)]);
    reflexivity.
Defined.


Lemma attached_vector_items_witness :
  items (attached_slot (ByNumber [(2, signal_entry "PV:Y2"); (1, signal_entry "PV:Y1")]))
  = [(2, attached_entry (signal_entry "PV:Y2"));
     (1, attached_entry (signal_entry "PV:Y1"))].
Proof.
  apply (attached_vector_items [(2, signal_entry "PV:Y2"); (1, signal_entry "PV:Y1")]).
  compute_done.
Defined.

Lemma walked_entry_is_addressed_witness :
  addressed
    (mkPVIEntry
       [("device",
         One (mkPVIEntry [] (Some "DEV:D:PVI") (new_object Block1)
                (Some (TClass Block1))))]
       (Some "DEV:PVI") (new_object Holder) (Some (TClass Holder))).
Proof.
  apply (walked_entry_is_addressed 10 example_hints (tables_in holder_tables) 20
           (root_entry_of (new_object Holder) "DEV:PVI") 5 []
           (mkPVIEntry
              [("device",
                One (mkPVIEntry [] (Some "DEV:D:PVI") (new_object Block1)
                       (Some (TClass Block1))))]
              (Some "DEV:PVI") (new_object Holder) (Some (TClass Holder)))
           [("DEV:PVI", 5); ("DEV:D:PVI", 10)]);
    reflexivity.
Defined.


Lemma sim_sets_declared_names_witness :
  is_Some (dict_get "value" (attrs (simulate (new_object Gauge)).2))
  <-> is_Some (dict_get "value" (attrs (new_object Gauge)))
      \/ ("value" ∈ dict_keys (Device_annotations
                                 ++ [("value", TAlias SignalRW [TClass float])])
          /\ skipped "value" = false).
Proof.
  refine (proj2 (proj2 (proj2
    (sim_sets_declared_names example_hints 20 (new_object Gauge) None
       (Device_annotations ++ [("value", TAlias SignalRW [TClass float])])
       (Ok tt) (simulate (new_object Gauge)).2 _ _))) _ "value");
    reflexivity.
Defined.

Lemma sim_failure_keeps_earlier_witness :
  _sim_common_blocks rack_hints 20 (new_object Rack) None
  = (Raise must_be_a_class,
     mkObject (no_arguments (TClass Rack))
       [("value",
         new_sim_signal (TAlias SignalRW [TClass float]) (Some (TClass float)) "value")]
       []).
Proof.
  refine (proj1
    (sim_failure_keeps_earlier rack_hints 19 (new_object Rack) None
       (Device_annotations ++ [("value", TAlias SignalRW [TClass float])]) []
       "slots" (TAlias DeviceVector [TOptional (TClass Block1)])
       must_be_a_class
       (mkObject (no_arguments (TClass Rack))
          [("value",
            new_sim_signal (TAlias SignalRW [TClass float]) (Some (TClass float))
              "value")]
          [])
       _ _ _ _));
    reflexivity.
Defined.
